(** * CrossPredict and the file pipeline of asap_essay_scoring

    A shallow embedding of [src/asap_essay_scoring/cross_predict.py] and of
    [token_features] from [src/asap_essay_scoring/pipeline.py].

    Conventions of the embedding.
    - A pandas table is the list of its rows; a column is the list obtained
      by projecting every row.  The table [keys] has a [RangeIndex], so a
      row label and a row position are the same number.
    - Python exceptions are values of [exn]; code that can raise lives in
      the monad [result] (pure code) or [M] (code that also touches the
      process state).
    - The process state [world] holds the global numpy generator, the heap
      of hyperparameter objects (so that aliasing and [copy.deepcopy] mean
      something), and a trace recording what was printed and which learners
      were instantiated.
    - The train:test ratios are exact rationals; the NaN that pandas returns
      for the maximum of an empty column is [None].  Group sizes produced by
      [groupby] are at least one, so no division by zero is ever performed.
    - scikit-learn's [StratifiedKFold] is outside the repository.  Its
      [split] is modelled by what every version of it does: a vector
      [test_folds] assigns a fold number to every row, fold [i] tests on the
      rows assigned [i] and trains on the others, both in ascending order.
      How the vector is drawn from the random generator is a parameter. *)

From stdpp Require Import gmap list sorting strings.
From Stdlib Require Import QArith.
From Stdlib Require Import Floats.PrimFloat Uint63.

Local Open Scope nat_scope.
Set Warnings "-clear-no-such-hyp".

(** ** Exceptions and the two monads *)

Inductive exn :=
| AssertionError (msg : option string)   (* [assert c] carries no message *)
| ValueError
| IndexError
| KeyError
| SystemError.                           (* a reference to no object *)

Inductive result (A : Type) :=
| Ok (a : A)
| Raise (e : exn).
Arguments Ok {A} a.
Arguments Raise {A} e.

Global Instance result_ret : MRet result := λ A, Ok.
Global Instance result_bind : MBind result :=
  λ A B f m, match m with Ok a => f a | Raise e => Raise e end.

Definition assert_ (c : bool) : result unit :=
  if c then Ok () else Raise (AssertionError None).

Definition exn_message (e : exn) : option string :=
  match e with AssertionError m => m | _ => None end.

(** ** pandas and numpy primitives on lists *)

(** [l.iloc[rows]] / [a[rows]]: positional selection, out of range raises. *)
Definition iloc {A} (l : list A) (rows : list nat) : result (list A) :=
  mapM (λ i, match l !! i with Some x => Ok x | None => Raise IndexError end) rows.

(** [s[labels]] on a column with a RangeIndex: a missing label raises. *)
Definition loc_labels {A} (l : list A) (labels : list nat) : result (list A) :=
  mapM (λ i, match l !! i with Some x => Ok x | None => Raise KeyError end) labels.

(** [pd.concat(frames)]: refuses an empty list of frames. *)
Definition pd_concat {A} (frames : list (list A)) : result (list A) :=
  match frames with
  | [] => Raise ValueError
  | _ => Ok (concat frames)
  end.

(** Sorted distinct values of a column: the keys of a [groupby]. *)
Fixpoint insert_uniq (x : nat) (l : list nat) : list nat :=
  match l with
  | [] => [x]
  | y :: l' =>
      if decide (x < y) then x :: y :: l'
      else if decide (x = y) then y :: l'
      else y :: insert_uniq x l'
  end.

Definition sort_uniq (l : list nat) : list nat := foldr insert_uniq [] l.

(** [df.groupby(col)]: the groups in ascending key order, every group
    keeping the rows of [df] with that key in their order in [df]. *)
Definition groupby {A} (key : A → nat) (df : list A) : list (nat * list A) :=
  map (λ e, (e, filter (λ r, key r = e) df)) (sort_uniq (map key df)).

(** [g.groups.keys()] *)
Definition groups_keys {A} (g : list (nat * list A)) : list nat := map fst g.

(** [g.get_group(e)] *)
Definition get_group {A} (g : list (nat * list A)) (e : nat) : result (list A) :=
  match list_find (λ eg, eg.1 = e) g with
  | Some (_, (_, rows)) => Ok rows
  | None => Raise KeyError
  end.

(** Equality of two [dict.keys()] views is equality of sets. *)
Definition keys_eq (a b : list nat) : bool :=
  forallb (λ x, bool_decide (x ∈ b)) a && forallb (λ x, bool_decide (x ∈ a)) b.

(** ** Data model *)

Record KeyRow := { essay_set : nat; ref : nat }.

Record Fold := { train : list nat; test : list nat }.

Record CountRow := { c_fold : nat; c_essay_set : nat; count : nat }.

Record MergedRow :=
  { m_fold : nat; m_essay_set : nat; train_count : nat; test_count : nat }.

Global Instance Fold_eq_dec : EqDecision Fold.
Proof. solve_decision. Defined.
Global Instance KeyRow_eq_dec : EqDecision KeyRow.
Proof. solve_decision. Defined.
Global Instance CountRow_eq_dec : EqDecision CountRow.
Proof. solve_decision. Defined.
Global Instance MergedRow_eq_dec : EqDecision MergedRow.
Proof. solve_decision. Defined.

(** [df.sort_values('essay_set')] on a count table. *)
Definition count_le (a b : CountRow) : Prop := c_essay_set a ≤ c_essay_set b.
Global Instance count_le_dec : RelDecision count_le.
Proof. intros a b. unfold count_le. apply _. Defined.
Global Instance count_le_total : Total count_le.
Proof. intros a b. unfold count_le. lia. Qed.

(** [train_counts.merge(test_counts, on=['fold', 'essay_set'], how='inner')] *)
Definition same_key (a b : CountRow) : Prop :=
  c_fold a = c_fold b ∧ c_essay_set a = c_essay_set b.
Global Instance same_key_dec : RelDecision same_key.
Proof. intros a b. unfold same_key. apply _. Defined.

Definition merge_inner (train_counts test_counts : list CountRow) : list MergedRow :=
  a ← train_counts;
  b ← filter (same_key a) test_counts;
  [ {| m_fold := c_fold a; m_essay_set := c_essay_set a;
       train_count := count a; test_count := count b |} ].

(** [df.train_count / df.test_count], row by row. *)
Definition ratio (r : MergedRow) : Q :=
  (inject_Z (Z.of_nat (train_count r)) / inject_Z (Z.of_nat (test_count r)))%Q.

Definition Qmax_ (a b : Q) : Q := if Qle_bool a b then b else a.
Definition Qmin_ (a b : Q) : Q := if Qle_bool a b then a else b.

(** [ratios.max()] and [ratios.min()]: NaN ([None]) on an empty column. *)
Definition series_max (s : list Q) : option Q :=
  match s with [] => None | q :: s' => Some (fold_left Qmax_ s' q) end.
Definition series_min (s : list Q) : option Q :=
  match s with [] => None | q :: s' => Some (fold_left Qmin_ s' q) end.

(** Float division and comparison with NaN: a NaN operand gives NaN, and
    every comparison with NaN is false. *)
Definition nan_div (a b : option Q) : option Q :=
  match a, b with Some x, Some y => Some (x / y)%Q | _, _ => None end.
Definition nan_lt (a : option Q) (b : Q) : bool :=
  match a with Some x => negb (Qle_bool b x) | None => false end.

Definition tolerance : Q := 102 # 100.

(** ** scikit-learn's split, given the fold assignment *)

(** [indices[mask]] for [indices = arange(n_samples)]; numpy refuses a
    boolean mask whose length is not [n_samples]. *)
Definition mask_select (n_samples : nat) (mask : list bool) : list nat :=
  filter (λ j, mask !! j = Some true) (seq 0 n_samples).

Definition fold_of_test_folds (n_samples : nat) (test_folds : list nat) (i : nat) : Fold :=
  let test_mask := map (λ v, bool_decide (v = i)) test_folds in
  {| train := mask_select n_samples (map negb test_mask);
     test := mask_select n_samples test_mask |}.

Abbreviation loc := positive.

Section Harness.
Context {Feat Label Pred Params RNG : Type}.

(** *** Dataset *)

Record Dataset := { X : list Feat; y : list Label; group : list nat }.

(** Modelled from the spec: [Dataset.select] of the module [data], which
    is not among the sources.  It returns a new dataset restricted to the
    given rows, keeping features, labels and groups aligned, and leaves
    the original untouched. *)
Definition select (d : Dataset) (rows : list nat) : result Dataset :=
  xs ← iloc (X d) rows;
  ys ← iloc (y d) rows;
  gs ← iloc (group d) rows;
  mret {| X := xs; y := ys; group := gs |}.

Record Prediction :=
  { pred : Pred; truth : Label; idx : nat; pred_essay_set : nat }.

(** [pd.DataFrame({'pred': .., 'truth': .., 'idx': .., 'essay_set': ..})]:
    the two arrays must be as long as the index of the two columns. *)
Definition DataFrame (preds : list Pred) (truths : list Label)
    (idxs essay_sets : list nat) : result (list Prediction) :=
  if decide (length preds = length idxs ∧ length truths = length idxs
             ∧ length essay_sets = length idxs)
  then Ok (zip_with (λ pt ie, {| pred := pt.1; truth := pt.2;
                                 idx := ie.1; pred_essay_set := ie.2 |})
             (zip preds truths) (zip idxs essay_sets))
  else Raise ValueError.

(** [preds.sort_values('idx')] *)
Definition idx_le (a b : Prediction) : Prop := idx a ≤ idx b.
Global Instance idx_le_dec : RelDecision idx_le.
Proof. intros a b. unfold idx_le. apply _. Defined.
Global Instance idx_le_total : Total idx_le.
Proof. intros a b. unfold idx_le. lia. Qed.

(** *** The process state

    The trace holds what the harness prints in verbose mode and, for the
    statements about training units, two marks that are no output: the
    entry of [_train_and_predict] with its arguments, and the instantiation
    of a learner with the object it received and the contents of that
    object at that moment. *)

Inductive event :=
| Print_training_fold (k : nat)
| Print_structure (n_models : nat) (min_ratio max_ratio : option Q)
| Call_train_and_predict (train_idx test_idx : list nat)
| New_learner (p : loc) (v : Params).

Record world := { rng : RNG; heap : gmap loc Params; trace : list event }.

Definition set_rng (s : RNG) (w : world) : world :=
  {| rng := s; heap := heap w; trace := trace w |}.
Definition set_heap (h : gmap loc Params) (w : world) : world :=
  {| rng := rng w; heap := h; trace := trace w |}.
Definition add_event (ev : event) (w : world) : world :=
  {| rng := rng w; heap := heap w; trace := trace w ++ [ev] |}.

Definition M (A : Type) : Type := world → result A * world.

Global Instance M_ret : MRet M := λ A a w, (Ok a, w).
Global Instance M_bind : MBind M :=
  λ A B f m w, match m w with
               | (Ok a, w') => f a w'
               | (Raise e, w') => (Raise e, w')
               end.

Definition lift {A} (r : result A) : M A := λ w, (r, w).
Definition log (ev : event) : M unit := λ w, (Ok (), add_event ev w).

(** [copy.deepcopy(p)]: a new object with the same contents. *)
Definition deepcopy (p : loc) : M loc :=
  λ w, match heap w !! p with
       | Some v =>
           let p' := fresh (dom (heap w)) in
           (Ok p', set_heap (<[p' := v]> (heap w)) w)
       | None => (Raise SystemError, w)
       end.

(** A method of an object holding a reference to [p]: it reads and may
    rewrite the contents of [p], and nothing else of the heap. *)
Definition on_object {A} (p : loc) (f : Params → A * Params) : M A :=
  λ w, match heap w !! p with
       | Some v => (Ok (f v).1, set_heap (<[p := (f v).2]> (heap w)) w)
       | None => (Raise SystemError, w)
       end.

(** *** Learners

    A learner class is constructed from a hyperparameter object and keeps
    the reference; each of its methods may change that object. *)
Record LearnerClass := {
  learner : Type;
  Learner_init : Params → learner * Params;
  Learner_train : learner → Dataset → Params → learner * Params;
  Learner_predict : learner → list Feat → Params → list Pred * Params
}.

Definition new_Learner (L : LearnerClass) (p : loc) : M (learner L) :=
  λ w, match heap w !! p with
       | Some v => on_object p (Learner_init L) (add_event (New_learner p v) w)
       | None => (Raise SystemError, w)
       end.

(** *** The harness *)

Record CrossPredict := {
  data : Dataset;
  params : loc;
  Learner : LearnerClass;
  verbose : nat;
  folds : list Fold;
  keys : list KeyRow
}.

Definition _train_and_predict (self : CrossPredict)
    (train_idx test_idx : list nat) : M (list Prediction) :=
  log (Call_train_and_predict train_idx test_idx);;
  train_data ← lift (select (data self) train_idx);
  test_data ← lift (select (data self) test_idx);
  p ← deepcopy (params self);
  l ← new_Learner (Learner self) p;
  l ← on_object p (Learner_train (Learner self) l train_data);
  preds ← on_object p (Learner_predict (Learner self) l (X test_data));
  es ← lift (loc_labels (map essay_set (keys self)) test_idx);
  lift (DataFrame preds (y test_data) test_idx es).

(** The comprehension that [_train_and_predict_one_fold] and [cheat]
    share word for word:
    [[self._train_and_predict(trn_es.get_group(e).ref,
                              tst_es.get_group(e).ref) for e in essays]] *)
Definition predict_each_essay_set (self : CrossPredict)
    (trn_es tst_es : list (nat * list KeyRow)) (essays : list nat)
    : M (list (list Prediction)) :=
  mapM (λ e,
          trn ← lift (get_group trn_es e);
          tst ← lift (get_group tst_es e);
          _train_and_predict self (map ref trn) (map ref tst)) essays.

Definition _train_and_predict_one_fold (self : CrossPredict) (k : nat)
    : M (list Prediction) :=
  (if decide (verbose self = 0) then mret () else log (Print_training_fold k));;
  f ← lift (match folds self !! k with Some f => Ok f | None => Raise IndexError end);
  let trn := train f in
  let tst := test f in
  trn_rows ← lift (iloc (keys self) trn);
  tst_rows ← lift (iloc (keys self) tst);
  let trn_es := groupby essay_set trn_rows in
  let tst_es := groupby essay_set tst_rows in
  let essays := groups_keys tst_es in
  lift (assert_ (keys_eq essays (groups_keys trn_es)));;
  frames ← predict_each_essay_set self trn_es tst_es essays;
  lift (pd_concat frames).

(** [sort_values] is modelled by a stable sort; pandas' default sort is
    not stable, which shows only when two records have the same [idx]. *)
Definition cross_predict (self : CrossPredict) : M (list Prediction) :=
  let kr := seq 0 (length (folds self)) in
  frames ← mapM (_train_and_predict_one_fold self) kr;
  preds ← lift (pd_concat frames);
  mret (merge_sort idx_le preds).

Definition _count_per_essay_set (self : CrossPredict) (k : nat)
    (rows : list nat) : result (list CountRow) :=
  sub ← iloc (keys self) rows;
  let cdf := map (λ eg, {| c_fold := k; c_essay_set := eg.1; count := length eg.2 |})
               (groupby essay_set sub) in
  (* [cdf.columns = [...]] needs three columns; an empty frame has none *)
  (if decide (cdf = []) then Raise ValueError else Ok ());;
  mret (merge_sort count_le cdf).

(** [pd.concat([self._count_per_essay_set(k, f[side])
               for k, f in enumerate(self.folds)])] *)
Definition count_table (self : CrossPredict) (side : Fold → list nat)
    : result (list CountRow) :=
  frames ← mapM (λ kf, _count_per_essay_set self kf.1 (side kf.2))
             (imap pair (folds self));
  pd_concat frames.

(** The part of [analyze_cross_predict_structure] after the two count
    tables are built. *)
Definition max_ratio (df : list MergedRow) : option Q := series_max (map ratio df).
Definition min_ratio (df : list MergedRow) : option Q := series_min (map ratio df).

Definition check_ratios (train_counts test_counts : list CountRow)
    : result (list MergedRow) :=
  let df := merge_inner train_counts test_counts in
  assert_ (nan_lt (nan_div (max_ratio df) (min_ratio df)) tolerance);;
  mret df.

Definition analyze_cross_predict_structure (self : CrossPredict)
    : M (list MergedRow) :=
  train_counts ← lift (count_table self train);
  test_counts ← lift (count_table self test);
  df ← lift (check_ratios train_counts test_counts);
  (if decide (verbose self = 0) then mret ()
   else log (Print_structure (length df) (min_ratio df) (max_ratio df)));;
  mret df.

Definition cheat (self : CrossPredict) : M (list Prediction) :=
  let trn_es := groupby essay_set (keys self) in
  let tst_es := groupby essay_set (keys self) in
  let essays := groups_keys tst_es in
  frames ← predict_each_essay_set self trn_es tst_es essays;
  lift (pd_concat frames).

(** *** Construction *)

Section Init.
(** [np.random.seed] and the drawing of the fold assignment by
    [StratifiedKFold(n_splits, shuffle=True)] from the global
    generator; [None] is its [ValueError]. *)
Variable np_random_seed : nat → RNG.
Variable make_test_folds : RNG → nat → list nat → option (list nat) * RNG.

Definition seed (n : nat) : M unit := λ w, (Ok (), set_rng (np_random_seed n) w).

Definition StratifiedKFold_split (n_splits : nat) (X_ : list Feat)
    (y_ : list nat) : M (list Fold) :=
  λ w,
    if decide (length X_ = length y_) then
      match make_test_folds (rng w) n_splits y_ with
      | (Some test_folds, s) =>
          if decide (length test_folds = length X_) then
            (Ok (map (fold_of_test_folds (length X_) test_folds) (seq 0 n_splits)),
             set_rng s w)
          else (Raise IndexError, set_rng s w)
      | (None, s) => (Raise ValueError, set_rng s w)
      end
    else (Raise ValueError, w).

(** [pd.DataFrame({'essay_set': data.group, 'ref': list(range(len(data.y)))})] *)
Definition make_keys (d : Dataset) : result (list KeyRow) :=
  if decide (length (group d) = length (y d))
  then Ok (zip_with (λ e i, {| essay_set := e; ref := i |})
             (group d) (seq 0 (length (y d))))
  else Raise ValueError.

Definition CrossPredict_init (data_ : Dataset) (Learner_ : LearnerClass)
    (hyperparameters : loc) (n_fold : nat) (verbose_ : nat) : M CrossPredict :=
  seed 0;;
  folds_ ← StratifiedKFold_split n_fold (X data_) (group data_);
  keys_ ← lift (make_keys data_);
  let self := {| data := data_; params := hyperparameters;
                 Learner := Learner_; verbose := verbose_;
                 folds := folds_; keys := keys_ |} in
  _ ← analyze_cross_predict_structure self;
  mret self.
End Init.
End Harness.

Arguments Dataset : clear implicits.
Arguments Prediction : clear implicits.
Arguments event : clear implicits.
Arguments world : clear implicits.
Arguments LearnerClass : clear implicits.
Arguments CrossPredict : clear implicits.

(** ** The file pipeline: [token_features] *)

Module pipeline.











End pipeline.

(** ** Concrete instances used to run the embedding *)

Module Examples.

(** A learner whose hyperparameters are a number: training overwrites the
    hyperparameter object it was given, and every prediction is the
    number of training rows. *)
Definition CountingLearner : LearnerClass nat nat nat nat :=
  {| learner := nat;
     Learner_init := λ v, (0, v);
     Learner_train := λ _ d v, (length (y d), v + 1);
     Learner_predict := λ l xs v, (map (λ _, l) xs, v) |}.

(** A fold assignment that deals the rows of every class to the folds in
    turn, as [StratifiedKFold] does up to the shuffle within a class. *)
Fixpoint deal (n : nat) (seen : list nat) (y_ : list nat) : list nat :=
  match y_ with
  | [] => []
  | e :: y' => (length (filter (λ e', e' = e) seen) `mod` n) :: deal n (e :: seen) y'
  end.

Definition dealing_folds (s : nat) (n : nat) (y_ : list nat) : option (list nat) * nat :=
  (if decide (2 ≤ n ∧ n ≤ length y_) then Some (deal n [] y_) else None, S s).

Definition seed_state (n : nat) : nat := n.

Definition dataset_of (groups : list nat) : Dataset nat nat :=
  {| X := seq 100 (length groups); y := seq 200 (length groups); group := groups |}.


(** 53 rows of essay set 1 followed by 52 rows of essay set 2. *)
Definition data105 : Dataset nat nat := dataset_of (replicate 53 1 ++ replicate 52 2).

(** Twelve rows, essay sets 1 and 2 alternating. *)
Definition data12 : Dataset nat nat := dataset_of (concat (replicate 6 [1; 2])).

(** The hyperparameter object [7] lives at location [1]. *)
Definition world0 : world nat nat :=
  {| rng := 42; heap := {[ 1%positive := 7 ]}; trace := [] |}.

Definition init (d : Dataset nat nat) (n_fold : nat) :=
  CrossPredict_init (Pred := nat) seed_state dealing_folds d CountingLearner 1%positive n_fold 0.

(** A harness record put together by hand, talkative, with one fold
    whose test rows lack essay set 2. *)
Definition lopsided : CrossPredict nat nat nat nat :=
  {| data := dataset_of [1; 1; 2];
     params := 1%positive;
     Learner := CountingLearner;
     verbose := 1;
     folds := [ {| train := [0; 2]; test := [1] |} ];
     keys := [ {| essay_set := 1; ref := 0 |}; {| essay_set := 1; ref := 1 |};
               {| essay_set := 2; ref := 2 |} ] |}.

End Examples.

(** ** Vocabulary of the statements *)

Section Vocabulary.
Context {Feat Label Pred Params RNG : Type}.


(** The calls of [_train_and_predict] recorded in a trace, oldest first,
    each with its train and its test indices. *)
Definition calls (t : list (event Params)) : list (list nat * list nat) :=
  omap (λ ev, match ev with
              | Call_train_and_predict a b => Some (a, b)
              | _ => None
              end) t.

(** A learner instantiation that received an object other than [p],
    holding the contents [v]. *)
Definition instantiates_copy (p : loc) (v : Params) (ev : event Params) : Prop :=
  match ev with
  | New_learner q u => q ≠ p ∧ u = v
  | _ => True
  end.

(** From [w] to [w'] the object [p] kept its contents, and every learner
    instantiated in between received its own copy of them. *)
Definition untouched (p : loc) (w w' : world Params RNG) : Prop :=
  ∀ v, heap w !! p = Some v →
       heap w' !! p = Some v
       ∧ ∃ evs, trace w' = trace w ++ evs ∧ Forall (instantiates_copy p v) evs.

(** The harness and its dataset of [R] rows fit together, as they do
    after construction. *)
Definition consistent (self : CrossPredict Feat Label Pred Params) (R : nat) : Prop :=
  length (X (data self)) = R ∧ length (y (data self)) = R
  ∧ length (group (data self)) = R
  ∧ make_keys (data self) = Ok (keys self).

(** Row [i] of the key table of a consistent harness. *)
Definition key_row (self : CrossPredict Feat Label Pred Params) (i : nat) : KeyRow :=
  {| essay_set := default 0 (group (data self) !! i); ref := i |}.

(** The rows of essay set [e] among the rows [rows], in their order. *)
Definition rows_of (self : CrossPredict Feat Label Pred Params)
    (e : nat) (rows : list nat) : list nat :=
  filter (λ i, group (data self) !! i = Some e) rows.

(** The essay sets present among the rows [rows], ascending. *)
Definition essay_sets_of (self : CrossPredict Feat Label Pred Params)
    (rows : list nat) : list nat :=
  sort_uniq (omap (λ i, group (data self) !! i) rows).

(** Essay set [e] is present among the rows [rows]. *)
Definition present (self : CrossPredict Feat Label Pred Params)
    (e : nat) (rows : list nat) : Prop :=
  ∃ i, i ∈ rows ∧ group (data self) !! i = Some e.


(** The state after the line that [_train_and_predict_one_fold] prints
    in verbose mode. *)
Definition printed (self : CrossPredict Feat Label Pred Params) (k : nat)
    (w : world Params RNG) : world Params RNG :=
  if decide (verbose self = 0) then w else add_event (Print_training_fold k) w.

(** A computation that can only raise exceptions satisfying [Q]. *)
Definition raises_only (Q : exn → Prop) {A} (m : M A) : Prop :=
  ∀ (w : world Params RNG) e w', m w = (Raise e, w') → Q e.

(** An exception that carries no message, hence no fold index and no
    group label. *)
Definition bare (e : exn) : Prop := exn_message e = None.

(** An exception other than an assertion failure. *)
Definition not_assertion (e : exn) : Prop := ∀ m, e ≠ AssertionError m.

(** A computation of which every run, failing or not, leaves [p]
    untouched. *)
Definition frames (p : loc) {A} (m : M A) : Prop :=
  ∀ w : world Params RNG, untouched p w (m w).2.

(** A record that pairs its index with the label and the essay set that
    the dataset has at that index. *)
Definition aligned (d : Dataset Feat Label) (r : Prediction Label Pred) : Prop :=
  y d !! idx r = Some (truth r) ∧ group d !! idx r = Some (pred_essay_set r).

(** A computation of which every run, failing or not, appends to the trace
    only events that satisfy [P]. *)
Definition emits (P : event Params → Prop) {A} (m : M A) : Prop :=
  ∀ w : world Params RNG, ∃ evs, trace (m w).2 = trace w ++ evs ∧ Forall P evs.


(** A computation whose every returned value satisfies [Q]. *)
Definition produces {A} (Q : A → Prop) (m : M A) : Prop :=
  ∀ (w : world Params RNG) a w', m w = (Ok a, w') → Q a.

(** A record whose label and essay set are those that the harness has at
    the index of the record. *)
Definition from_row (self : CrossPredict Feat Label Pred Params)
    (r : Prediction Label Pred) : Prop :=
  y (data self) !! idx r = Some (truth r)
  ∧ map essay_set (keys self) !! idx r = Some (pred_essay_set r).

(** A training unit that predicts the very rows it was trained on. *)
Definition in_sample (ev : event Params) : Prop :=
  match ev with
  | Call_train_and_predict train_idx test_idx => train_idx = test_idx
  | _ => True
  end.
End Vocabulary.

(** * Properties *)

(** ** The [result] monad and the list primitives *)

Lemma result_bind_Ok {A B} (m : result A) (f : A → result B) (b : B) :
  m ≫= f = Ok b ↔ ∃ a, m = Ok a ∧ f a = Ok b.
Proof.
  destruct m as [a|e]; simpl; split.
  - intros H. by exists a.
  - by intros (a' & [= ->] & H).
  - discriminate.
  - by intros (a' & [=] & _).
Qed.

Lemma mapM_result_Ok {A B} (f : A → result B) (l : list A) (bs : list B) :
  mapM f l = Ok bs ↔ Forall2 (λ a b, f a = Ok b) l bs.
Proof.
  revert bs. induction l as [|a l IH]; intros bs; simpl.
  - split; [intros [= <-]; constructor | by inversion 1].
  - split.
    + intros (b & Hb & H)%result_bind_Ok.
      apply result_bind_Ok in H as (bs' & Hbs & [= <-]).
      constructor; [done | by apply IH].
    + inversion 1 as [|? b ? bs' Hb Hbs]; subst.
      apply result_bind_Ok. exists b. split; [done|].
      apply result_bind_Ok. exists bs'. split; [by apply IH | done].
Qed.

Lemma mapM_result_total {A B} (f : A → result B) (g : A → B) (l : list A) :
  Forall (λ a, f a = Ok (g a)) l → mapM f l = Ok (map g l).
Proof.
  intros H. apply mapM_result_Ok. induction H; simpl; by constructor.
Qed.

Lemma mapM_result_length {A B} (f : A → result B) (l : list A) (bs : list B) :
  mapM f l = Ok bs → length bs = length l.
Proof. intros H%mapM_result_Ok. symmetry. by eapply Forall2_length. Qed.

Lemma iloc_total {A} (l : list A) (g : nat → A) (rows : list nat) :
  Forall (λ i, l !! i = Some (g i)) rows → iloc l rows = Ok (map g rows).
Proof.
  intros H. apply mapM_result_total.
  eapply Forall_impl; [exact H|]. by intros i ->.
Qed.

Lemma loc_labels_total {A} (l : list A) (g : nat → A) (rows : list nat) :
  Forall (λ i, l !! i = Some (g i)) rows → loc_labels l rows = Ok (map g rows).
Proof.
  intros H. apply mapM_result_total.
  eapply Forall_impl; [exact H|]. by intros i ->.
Qed.

Lemma iloc_Ok_lookup {A} (l : list A) (rows : list nat) (xs : list A) :
  iloc l rows = Ok xs → Forall2 (λ i x, l !! i = Some x) rows xs.
Proof.
  intros H%mapM_result_Ok. eapply Forall2_impl; [exact H|].
  intros i x. simpl. destruct (l !! i); [by intros [= ->] | discriminate].
Qed.

Lemma pd_concat_Ok {A} (frames : list (list A)) (df : list A) :
  pd_concat frames = Ok df → frames ≠ [] ∧ df = concat frames.
Proof. destruct frames; [discriminate | by intros [= <-]]. Qed.


(** [sort_uniq] lists every value once. *)
Lemma elem_of_insert_uniq (x y : nat) (l : list nat) :
  y ∈ insert_uniq x l ↔ y = x ∨ y ∈ l.
Proof.
  induction l as [|z l IH]; simpl.
  - rewrite list_elem_of_singleton. split; [by left | intros [?|[]%elem_of_nil]; done].
  - repeat case_decide; subst; rewrite ?elem_of_cons, ?IH; naive_solver.
Qed.

Lemma elem_of_sort_uniq (x : nat) (l : list nat) : x ∈ sort_uniq l ↔ x ∈ l.
Proof.
  induction l as [|z l IH]; simpl; [done|].
  rewrite elem_of_insert_uniq, IH, elem_of_cons. done.
Qed.

Lemma insert_uniq_lower (b x : nat) (l : list nat) :
  b < x → Forall (λ y, b < y) l → Forall (λ y, b < y) (insert_uniq x l).
Proof.
  intros Hb Hl. apply Forall_forall. intros y [->|Hy]%elem_of_insert_uniq; [done|].
  by eapply Forall_forall in Hl.
Qed.

Lemma insert_uniq_sorted (x : nat) (l : list nat) :
  StronglySorted lt l → StronglySorted lt (insert_uniq x l).
Proof.
  induction 1 as [|z l Hl IH Hz]; simpl.
  - repeat constructor.
  - repeat case_decide; subst.
    + constructor; [by constructor|]. constructor; [done|].
      eapply Forall_impl; [exact Hz|]. simpl. lia.
    + by constructor.
    + constructor; [done|]. apply insert_uniq_lower; [lia | done].
Qed.

Lemma sort_uniq_sorted (l : list nat) : StronglySorted lt (sort_uniq l).
Proof.
  induction l; simpl; [constructor | by apply insert_uniq_sorted].
Qed.

Lemma StronglySorted_lt_NoDup (l : list nat) : StronglySorted lt l → NoDup l.
Proof.
  induction 1 as [|x l _ IH Hx]; constructor; [|done].
  intros Hin. eapply Forall_forall in Hx; [|exact Hin]. lia.
Qed.

Lemma sort_uniq_NoDup (l : list nat) : NoDup (sort_uniq l).
Proof. apply StronglySorted_lt_NoDup, sort_uniq_sorted. Qed.


(** Splitting a table by the values of a key and gluing the pieces together
    again only reorders its rows. *)
Lemma filter_key_split {A} (key : A → nat) (e : nat) (ks : list nat) (l : list A) :
  e ∉ ks →
  filter (λ r, key r ∈ e :: ks) l
    ≡ₚ filter (λ r, key r = e) l ++ filter (λ r, key r ∈ ks) l.
Proof.
  intros He. induction l as [|r l IH]; [done|].
  rewrite !filter_cons.
  destruct (decide (key r = e)) as [Heq|Hne].
  - rewrite decide_True by (rewrite Heq; left).
    rewrite decide_False by (by rewrite Heq).
    simpl. by rewrite IH.
  - destruct (decide (key r ∈ ks)) as [Hin|Hnin].
    + rewrite decide_True by (by right).
      rewrite IH. by rewrite Permutation_middle.
    + rewrite decide_False; [done|].
      intros [?|?]%elem_of_cons; done.
Qed.

Lemma concat_filter_keys {A} (key : A → nat) (ks : list nat) (l : list A) :
  NoDup ks →
  concat (map (λ e, filter (λ r, key r = e) l) ks) ≡ₚ filter (λ r, key r ∈ ks) l.
Proof.
  induction 1 as [|e ks He Hks IH]; simpl.
  - induction l as [|r l IHl]; [done|].
    rewrite filter_cons, decide_False; [done | apply not_elem_of_nil].
  - rewrite filter_key_split by done. by rewrite IH.
Qed.

Lemma concat_filter_all {A} (key : A → nat) (ks : list nat) (l : list A) :
  NoDup ks → (∀ r, r ∈ l → key r ∈ ks) →
  concat (map (λ e, filter (λ r, key r = e) l) ks) ≡ₚ l.
Proof.
  intros Hks Hall. rewrite concat_filter_keys by done.
  induction l as [|r l IH]; [done|].
  rewrite filter_cons, decide_True by (apply Hall; left).
  f_equiv. apply IH. intros r' Hr'. apply Hall. by right.
Qed.

Lemma groupby_keys {A} (key : A → nat) (df : list A) :
  groups_keys (groupby key df) = sort_uniq (map key df).
Proof.
  unfold groups_keys, groupby. rewrite map_map. simpl. apply map_id.
Qed.

Lemma groupby_concat {A} (key : A → nat) (df : list A) :
  concat (map snd (groupby key df)) ≡ₚ df.
Proof.
  unfold groupby. rewrite map_map. simpl.
  apply concat_filter_all; [apply sort_uniq_NoDup|].
  intros r Hr. apply elem_of_sort_uniq, list_elem_of_fmap. by exists r.
Qed.



(** ** Running the state monad *)

Section Running.
Context {Params RNG : Type}.
Implicit Types w : world Params RNG.

Lemma bind_run {A B} (m : M A) (f : A → M B) w :
  (m ≫= f) w = match m w with
               | (Ok a, w') => f a w'
               | (Raise e, w') => (Raise e, w')
               end.
Proof. reflexivity. Qed.

Lemma bind_Ok {A B} (m : M A) (f : A → M B) w a w1 :
  m w = (Ok a, w1) → (m ≫= f) w = f a w1.
Proof. intros H. by rewrite bind_run, H. Qed.

Lemma bind_Raise {A B} (m : M A) (f : A → M B) w e w1 :
  m w = (Raise e, w1) → (m ≫= f) w = (Raise e, w1).
Proof. intros H. by rewrite bind_run, H. Qed.

Lemma bind_Ok_inv {A B} (m : M A) (f : A → M B) w b w' :
  (m ≫= f) w = (Ok b, w') → ∃ a w1, m w = (Ok a, w1) ∧ f a w1 = (Ok b, w').
Proof.
  rewrite bind_run. destruct (m w) as [[a|e] w1]; [|discriminate].
  intros H. by exists a, w1.
Qed.

Lemma bind_Raise_inv {A B} (m : M A) (f : A → M B) w e w' :
  (m ≫= f) w = (Raise e, w') →
  m w = (Raise e, w') ∨ ∃ a w1, m w = (Ok a, w1) ∧ f a w1 = (Raise e, w').
Proof.
  rewrite bind_run. destruct (m w) as [[a|e1] w1].
  - intros H. right. by exists a, w1.
  - intros [= -> ->]. by left.
Qed.

Lemma lift_run {A} (r : result A) w : lift r w = (r, w).
Proof. reflexivity. Qed.
End Running.

(** ** Determinism of the folds (C5) *)

(** C5: constructing the harness twice from the same data, learner,
    hyperparameter object and fold count gives the same outcome, and so the
    same train and test index sequences in every fold, whatever the state of
    the global random generator (or of anything else) was before each
    construction: [np.random.seed(0)] resets the generator before the folds
    are drawn. *)
Theorem CrossPredict_init_deterministic
    {Feat Label Pred Params RNG : Type}
    (np_random_seed : nat → RNG)
    (make_test_folds : RNG → nat → list nat → option (list nat) * RNG)
    (d : Dataset Feat Label) (L : LearnerClass Feat Label Pred Params)
    (p : loc) (n_fold verbose_ : nat) (w1 w2 : world Params RNG) :
  (CrossPredict_init np_random_seed make_test_folds d L p n_fold verbose_ w1).1
  = (CrossPredict_init np_random_seed make_test_folds d L p n_fold verbose_ w2).1.
Proof.
  unfold CrossPredict_init.
  rewrite !(bind_run (seed _ _)). unfold seed.
  rewrite !(bind_run (StratifiedKFold_split _ _ _ _)).
  unfold StratifiedKFold_split. simpl.
  destruct (decide (length (X d) = length (group d))); [|done].
  destruct (make_test_folds (np_random_seed 0) n_fold (group d)) as [[tf|] s]; [|done].
  destruct (decide (length tf = length (X d))); [|done].
  rewrite !bind_run, !lift_run.
  destruct (make_keys d) as [ks|?]; [|done].
  rewrite !bind_run. unfold analyze_cross_predict_structure.
  rewrite !bind_run, !lift_run.
  destruct (count_table _ train) as [tc|?]; [|done].
  rewrite !bind_run, !lift_run.
  destruct (count_table _ test) as [tt|?]; [|done].
  rewrite !bind_run, !lift_run.
  destruct (check_ratios tc tt) as [df|?]; [|done].
  rewrite !bind_run. simpl.
  destruct (decide (verbose_ = 0)); done.
Qed.

(** ** The structural validator (C3, C9) *)










Lemma merge_inner_app (tc1 tc2 tt : list CountRow) :
  merge_inner (tc1 ++ tc2) tt = merge_inner tc1 tt ++ merge_inner tc2 tt.
Proof. unfold merge_inner. apply bind_app. Qed.

Lemma merge_inner_unmatched_row (row : CountRow) (tt : list CountRow) :
  Forall (λ b, ¬ same_key row b) tt → merge_inner [row] tt = [].
Proof.
  intros H. unfold merge_inner. simpl.
  replace (filter (same_key row) tt) with (@nil CountRow); [done|].
  symmetry. induction H as [|b tt Hb _ IH]; [done|].
  by rewrite filter_cons, decide_False.
Qed.

Lemma merge_inner_drop_train (pre post tt : list CountRow) (row : CountRow) :
  Forall (λ b, ¬ same_key row b) tt →
  merge_inner (pre ++ row :: post) tt = merge_inner (pre ++ post) tt.
Proof.
  intros H. rewrite (merge_inner_app pre (row :: post)).
  change (row :: post) with ([row] ++ post).
  by rewrite merge_inner_app, merge_inner_unmatched_row, merge_inner_app.
Qed.

Lemma merge_inner_drop_test (tc pre post : list CountRow) (row : CountRow) :
  Forall (λ a, ¬ same_key a row) tc →
  merge_inner tc (pre ++ row :: post) = merge_inner tc (pre ++ post).
Proof.
  induction 1 as [|a tc Ha _ IH]; [done|].
  change (a :: tc) with ([a] ++ tc). rewrite !(merge_inner_app [a]), IH.
  f_equal. unfold merge_inner. simpl.
  by rewrite !filter_app, filter_cons, decide_False.
Qed.

Lemma elem_of_merge_inner (tc tt : list CountRow) (r : MergedRow) :
  r ∈ merge_inner tc tt ↔
  ∃ a b, a ∈ tc ∧ b ∈ tt ∧ same_key a b
         ∧ r = {| m_fold := c_fold a; m_essay_set := c_essay_set a;
                  train_count := count a; test_count := count b |}.
Proof.
  unfold merge_inner. rewrite list_elem_of_bind. split.
  - intros (a & Hr & Ha). apply list_elem_of_bind in Hr as (b & Hr & Hb).
    apply list_elem_of_filter in Hb as [Hab Hb].
    apply list_elem_of_singleton in Hr. by exists a, b.
  - intros (a & b & Ha & Hb & Hab & ->). exists a. split; [|done].
    apply list_elem_of_bind. exists b. split; [by apply list_elem_of_singleton|].
    by apply list_elem_of_filter.
Qed.

(** C9: the two count tables are joined on (fold, essay_set) and only pairs
    present in both tables give a row; a row of either table whose pair
    the other table lacks changes neither the joined table nor the verdict
    of the tolerance assertion. *)
Theorem unmatched_pair_is_ignored (tc tt : list CountRow) :
  (∀ r, r ∈ merge_inner tc tt ↔
        ∃ a b, a ∈ tc ∧ b ∈ tt ∧ same_key a b
               ∧ r = {| m_fold := c_fold a; m_essay_set := c_essay_set a;
                        train_count := count a; test_count := count b |})
  ∧ (∀ pre row post,
       tc = pre ++ row :: post → Forall (λ b, ¬ same_key row b) tt →
       check_ratios tc tt = check_ratios (pre ++ post) tt)
  ∧ (∀ pre row post,
       tt = pre ++ row :: post → Forall (λ a, ¬ same_key a row) tc →
       check_ratios tc tt = check_ratios tc (pre ++ post)).
Proof.
  split; [apply elem_of_merge_inner|]. split.
  - intros pre row post -> H. unfold check_ratios.
    by rewrite merge_inner_drop_train.
  - intros pre row post -> H. unfold check_ratios.
    by rewrite merge_inner_drop_test.
Qed.

(** ** The token-feature stage (C10) *)





(** ** The fold partition (C2) *)

Lemma filter_ext_in {A} (P Q : A → Prop) `{∀ x, Decision (P x)} `{∀ x, Decision (Q x)}
    (l : list A) :
  (∀ x, x ∈ l → P x ↔ Q x) → filter P l = filter Q l.
Proof.
  induction l as [|x l IH]; intros HPQ; [done|].
  rewrite !filter_cons.
  assert (∀ x0, x0 ∈ l → P x0 ↔ Q x0) as Hl by (intros ? ?; apply HPQ; by right).
  destruct (decide (P x)) as [HP|HP].
  - rewrite decide_True by (apply HPQ; [left | done]). by rewrite IH.
  - rewrite decide_False by (rewrite <- HPQ; [done | left]). by rewrite IH.
Qed.

Lemma elem_of_mask_select (n_samples : nat) (mask : list bool) (j : nat) :
  j ∈ mask_select n_samples mask ↔ j < n_samples ∧ mask !! j = Some true.
Proof.
  unfold mask_select. rewrite list_elem_of_filter, elem_of_seq. split.
  - intros [? ?]. split; [lia | done].
  - intros [? ?]. split; [done | lia].
Qed.

Lemma elem_of_test_fold (n_samples : nat) (test_folds : list nat) (i j : nat) :
  j ∈ test (fold_of_test_folds n_samples test_folds i)
  ↔ j < n_samples ∧ test_folds !! j = Some i.
Proof.
  simpl. rewrite elem_of_mask_select, list_lookup_fmap.
  destruct (test_folds !! j) as [v|]; simpl; [|by split; intros [? [=]]].
  split; intros [Hj Hv]; (split; [done|]).
  - injection Hv as Hv. by apply bool_decide_eq_true in Hv as ->.
  - injection Hv as ->. by rewrite bool_decide_eq_true_2.
Qed.

Lemma elem_of_train_fold (n_samples : nat) (test_folds : list nat) (i j : nat) :
  j ∈ train (fold_of_test_folds n_samples test_folds i)
  ↔ j < n_samples ∧ ∃ v, test_folds !! j = Some v ∧ v ≠ i.
Proof.
  simpl. rewrite elem_of_mask_select, !list_lookup_fmap.
  destruct (test_folds !! j) as [v|]; simpl.
  - split; intros [Hj Hv]; (split; [done|]).
    + exists v. split; [done|]. injection Hv as Hv.
      apply negb_true_iff, bool_decide_eq_false in Hv. done.
    + destruct Hv as (v' & [= <-] & Hne). by rewrite bool_decide_eq_false_2.
  - split; [by intros [? [=]] | by intros [? (v & [=] & _)]].
Qed.

Lemma test_fold_filter (test_folds : list nat) (i : nat) :
  test (fold_of_test_folds (length test_folds) test_folds i)
  = filter (λ j, default 0 (test_folds !! j) = i) (seq 0 (length test_folds)).
Proof.
  simpl. unfold mask_select. apply filter_ext_in.
  intros j Hj%elem_of_seq. rewrite list_lookup_fmap.
  destruct (lookup_lt_is_Some_2 test_folds j) as [v Hv]; [lia|].
  rewrite Hv. simpl. split.
  - intros [= H]. by apply bool_decide_eq_true in H.
  - intros ->. by rewrite bool_decide_eq_true_2.
Qed.

Lemma test_folds_cover (n_splits : nat) (test_folds : list nat) :
  Forall (λ v, v < n_splits) test_folds →
  concat (map (λ i, test (fold_of_test_folds (length test_folds) test_folds i))
            (seq 0 n_splits))
  ≡ₚ seq 0 (length test_folds).
Proof.
  intros Hrange.
  erewrite map_ext by (intros i; apply test_fold_filter).
  apply (concat_filter_all (λ j, default 0 (test_folds !! j))); [apply NoDup_seq|].
  intros j Hj%elem_of_seq.
  destruct (lookup_lt_is_Some_2 test_folds j) as [v Hv]; [lia|].
  rewrite Hv. simpl. apply elem_of_seq.
  eapply Forall_lookup_1 in Hrange; [|exact Hv]. simpl in Hrange. lia.
Qed.

(** What a successful construction establishes. *)
Lemma CrossPredict_init_Ok_inv
    {Feat Label Pred Params RNG : Type}
    (np_random_seed : nat → RNG)
    (make_test_folds : RNG → nat → list nat → option (list nat) * RNG)
    (d : Dataset Feat Label) (L : LearnerClass Feat Label Pred Params)
    (p : loc) (n_fold verbose_ : nat) (w w' : world Params RNG)
    (self : CrossPredict Feat Label Pred Params) :
  CrossPredict_init np_random_seed make_test_folds d L p n_fold verbose_ w = (Ok self, w') →
  ∃ test_folds s,
    make_test_folds (np_random_seed 0) n_fold (group d) = (Some test_folds, s)
    ∧ length (X d) = length (group d)
    ∧ length test_folds = length (X d)
    ∧ make_keys d = Ok (keys self)
    ∧ folds self = map (fold_of_test_folds (length (X d)) test_folds) (seq 0 n_fold)
    ∧ data self = d ∧ params self = p ∧ Learner self = L ∧ verbose self = verbose_
    ∧ (∃ tc, count_table self train = Ok tc)
    ∧ (∃ tt, count_table self test = Ok tt).
Proof.
  unfold CrossPredict_init. intros H.
  apply bind_Ok_inv in H as ([] & w1 & Hseed & H).
  unfold seed in Hseed. injection Hseed as <-.
  apply bind_Ok_inv in H as (fs & w2 & Hsplit & H).
  apply bind_Ok_inv in H as (ks & w3 & Hkeys & H).
  apply bind_Ok_inv in H as (df & w4 & Han & H).
  injection H as <- <-.
  unfold StratifiedKFold_split in Hsplit. simpl in Hsplit.
  destruct (decide (length (X d) = length (group d))) as [Hlen|]; [|done].
  destruct (make_test_folds _ _ _) as [[tf|] s] eqn:Htf; [|done].
  destruct (decide (length tf = length (X d))) as [Hlen'|]; [|done].
  injection Hsplit as <- <-.
  rewrite lift_run in Hkeys. injection Hkeys as Hkeys <-.
  exists tf, s. simpl. do 9 (split; [done|]).
  unfold analyze_cross_predict_structure in Han.
  apply bind_Ok_inv in Han as (tc & w5 & Htc & Han).
  apply bind_Ok_inv in Han as (tt & w6 & Htt & Han).
  rewrite lift_run in Htc, Htt.
  injection Htc as Htc _. injection Htt as Htt _.
  split; [by exists tc | by exists tt].
Qed.

Lemma folds_partition_rows_aux
    {Feat Label Pred Params RNG : Type}
    (np_random_seed : nat → RNG)
    (make_test_folds : RNG → nat → list nat → option (list nat) * RNG)
    (d : Dataset Feat Label) (L : LearnerClass Feat Label Pred Params)
    (p : loc) (n_fold verbose_ : nat) (w w' : world Params RNG)
    (self : CrossPredict Feat Label Pred Params) :
  CrossPredict_init np_random_seed make_test_folds d L p n_fold verbose_ w = (Ok self, w') →
  Forall (λ v, v < n_fold) (default [] (make_test_folds (np_random_seed 0) n_fold (group d)).1) →
  concat (map test (folds self)) ≡ₚ seq 0 (length (y d)).
Proof.
  intros Hinit Hrange.
  apply CrossPredict_init_Ok_inv in Hinit
    as (tf & s & Htf & HX & Hlen & Hkeys & Hfolds & _).
  rewrite Htf in Hrange. simpl in Hrange.
  assert (length (y d) = length tf) as Hy.
  { unfold make_keys in Hkeys. case_decide; [lia | done]. }
  rewrite Hfolds, Hy, <- Hlen, map_map. by apply test_folds_cover.
Qed.

(** C2: in a constructed harness whose fold assignment gives every row a
    fold number below [n_fold], no index is in both the train and the test
    sequence of a fold, train and test of a fold together are all indices,
    and the test sequences of all folds put end to end are a rearrangement
    of [0, ..., R-1]: every index is tested in exactly one fold, once. *)
Theorem folds_partition_rows
    {Feat Label Pred Params RNG : Type}
    (np_random_seed : nat → RNG)
    (make_test_folds : RNG → nat → list nat → option (list nat) * RNG)
    (d : Dataset Feat Label) (L : LearnerClass Feat Label Pred Params)
    (p : loc) (n_fold verbose_ : nat) (w w' : world Params RNG)
    (self : CrossPredict Feat Label Pred Params) :
  CrossPredict_init np_random_seed make_test_folds d L p n_fold verbose_ w = (Ok self, w') →
  Forall (λ v, v < n_fold) (default [] (make_test_folds (np_random_seed 0) n_fold (group d)).1) →
  (∀ f i, f ∈ folds self → i ∈ train f → i ∉ test f)
  ∧ (∀ f i, f ∈ folds self → i < length (y d) → i ∈ train f ∨ i ∈ test f)
  ∧ concat (map test (folds self)) ≡ₚ seq 0 (length (y d)).
Proof.
  intros Hinit Hrange.
  pose proof (folds_partition_rows_aux _ _ _ _ _ _ _ _ _ _ Hinit Hrange) as Hcover.
  apply CrossPredict_init_Ok_inv in Hinit
    as (tf & s & Htf & HX & Hlen & Hkeys & Hfolds & _).
  rewrite Htf in Hrange. simpl in Hrange.
  assert (length (y d) = length tf) as Hy.
  { unfold make_keys in Hkeys. case_decide; [lia | done]. }
  split; [|split; [|exact Hcover]]; rewrite Hfolds, ?Hy, <- ?Hlen.
  - intros f i (k & -> & _)%list_elem_of_fmap Htr Hte.
    apply elem_of_train_fold in Htr as (_ & v & Hv & Hne).
    apply elem_of_test_fold in Hte as (_ & Hv'). congruence.
  - intros f i (k & -> & _)%list_elem_of_fmap Hi.
    destruct (lookup_lt_is_Some_2 tf i) as [v Hv]; [done|].
    destruct (decide (v = k)) as [->|Hne].
    + right. by apply elem_of_test_fold.
    + left. apply elem_of_train_fold. split; [done|]. by exists v.
Qed.

(** ** The hyperparameter object is never written (C6) *)

Section Frame.
Context {Feat Label Pred Params RNG : Type}.
Implicit Types w : world Params RNG.
Implicit Types self : CrossPredict Feat Label Pred Params.
Local Abbreviation frames := (@frames Params RNG) (only parsing).

Lemma untouched_refl p w : untouched p w w.
Proof.
  intros v Hv. split; [done|]. exists []. by rewrite app_nil_r.
Qed.

Lemma untouched_trans p w1 w2 w3 :
  untouched p w1 w2 → untouched p w2 w3 → untouched p w1 w3.
Proof.
  intros H12 H23 v Hv.
  destruct (H12 v Hv) as (Hv2 & evs1 & Ht1 & Hevs1).
  destruct (H23 v Hv2) as (Hv3 & evs2 & Ht2 & Hevs2).
  split; [done|]. exists (evs1 ++ evs2).
  split; [by rewrite Ht2, Ht1, app_assoc | by apply Forall_app].
Qed.

Lemma frames_ret p {A} (a : A) : frames p (mret a : @M Params RNG A).
Proof. intros w. apply untouched_refl. Qed.

Lemma frames_lift p {A} (r : result A) : frames p (lift r : @M Params RNG A).
Proof. intros w. apply untouched_refl. Qed.

Lemma frames_bind p {A B} (m : @M Params RNG A) (f : A → @M Params RNG B) :
  frames p m → (∀ a, frames p (f a)) → frames p (m ≫= f).
Proof.
  intros Hm Hf w. rewrite bind_run. specialize (Hm w).
  destruct (m w) as [[a|e] w1]; [|done].
  eapply untouched_trans; [exact Hm | apply Hf].
Qed.

Lemma frames_mapM p {A B} (f : A → @M Params RNG B) (l : list A) :
  (∀ a, frames p (f a)) → frames p (mapM f l).
Proof.
  intros Hf. induction l as [|a l IH]; simpl.
  - apply frames_ret.
  - apply frames_bind; [apply Hf|]. intros b.
    apply frames_bind; [apply IH|]. intros bs. apply frames_ret.
Qed.

Lemma frames_log_print p (ev : event Params) :
  (∀ v, instantiates_copy p v ev) → frames p (log ev : @M Params RNG unit).
Proof.
  intros Hev w v Hv. split; [done|]. exists [ev]. split; [done|].
  constructor; [apply Hev | constructor].
Qed.

Lemma frames_on_object p q {A} (f : Params → A * Params) :
  q ≠ p → frames p (on_object q f).
Proof.
  intros Hq w v Hv. unfold on_object.
  destruct (heap w !! q) as [u|]; simpl.
  - split; [by rewrite lookup_insert_ne|]. exists []. by rewrite app_nil_r.
  - split; [done|]. exists []. by rewrite app_nil_r.
Qed.

(** [deepcopy] followed by the construction of the learner: the learner
    receives a new object with the contents of [p]. *)
Lemma frames_copy_then_new p (L : LearnerClass Feat Label Pred Params)
    {A} (k : loc → learner L → @M Params RNG A) :
  (∀ q l, q ≠ p → frames p (k q l)) →
  frames p (q ← deepcopy p; l ← new_Learner L q; k q l).
Proof.
  intros Hk w v Hv. rewrite bind_run. unfold deepcopy. rewrite Hv.
  set (q := fresh (dom (heap w))).
  assert (q ≠ p) as Hq.
  { intros Heq. apply (is_fresh (dom (heap w))). fold q. rewrite Heq.
    apply elem_of_dom. by exists v. }
  rewrite bind_run. unfold new_Learner. simpl.
  rewrite lookup_insert_eq. unfold on_object. simpl.
  rewrite lookup_insert_eq.
  match goal with |- context [k q ?l ?w1] => set (l0 := l); set (w0 := w1) end.
  destruct (Hk q l0 Hq w0 v) as (Hv' & evs & Ht & Hevs).
  { subst w0. simpl. by rewrite !lookup_insert_ne. }
  split; [done|]. exists (New_learner q v :: evs).
  split.
  - rewrite Ht. subst w0. simpl. by rewrite <- app_assoc.
  - constructor; [done | done].
Qed.

Lemma _train_and_predict_frames self train_idx test_idx :
  frames (params self) (_train_and_predict self train_idx test_idx).
Proof.
  unfold _train_and_predict.
  apply frames_bind; [by apply frames_log_print|]. intros _.
  apply frames_bind; [apply frames_lift|]. intros train_data.
  apply frames_bind; [apply frames_lift|]. intros test_data.
  apply frames_copy_then_new. intros q l Hq.
  apply frames_bind; [by apply frames_on_object|]. intros l'.
  apply frames_bind; [by apply frames_on_object|]. intros preds.
  apply frames_bind; [apply frames_lift|]. intros es.
  apply frames_lift.
Qed.

Lemma predict_each_essay_set_frames self trn_es tst_es essays :
  frames (params self) (predict_each_essay_set self trn_es tst_es essays).
Proof.
  apply frames_mapM. intros e.
  apply frames_bind; [apply frames_lift|]. intros trn.
  apply frames_bind; [apply frames_lift|]. intros tst.
  apply _train_and_predict_frames.
Qed.

Lemma _train_and_predict_one_fold_frames self k :
  frames (params self) (_train_and_predict_one_fold self k).
Proof.
  unfold _train_and_predict_one_fold.
  apply frames_bind.
  { case_decide; [apply frames_ret | by apply frames_log_print]. }
  intros _. apply frames_bind; [apply frames_lift|]. intros f.
  apply frames_bind; [apply frames_lift|]. intros trn_rows.
  apply frames_bind; [apply frames_lift|]. intros tst_rows.
  apply frames_bind; [apply frames_lift|]. intros _.
  apply frames_bind; [apply predict_each_essay_set_frames|]. intros frames_.
  apply frames_lift.
Qed.

Lemma cross_predict_frames self : frames (params self) (cross_predict self).
Proof.
  unfold cross_predict.
  apply frames_bind; [apply frames_mapM, _train_and_predict_one_fold_frames|].
  intros frames_. apply frames_bind; [apply frames_lift|]. intros preds.
  apply frames_ret.
Qed.

Lemma cheat_frames self : frames (params self) (cheat self).
Proof.
  unfold cheat.
  apply frames_bind; [apply predict_each_essay_set_frames|].
  intros frames_. apply frames_lift.
Qed.

(** One successful training unit: exactly one learner is instantiated,
    on a new object holding the contents of the shared one. *)
Lemma _train_and_predict_Ok_trace self train_idx test_idx w recs w' :
  _train_and_predict self train_idx test_idx w = (Ok recs, w') →
  ∃ q v, heap w !! params self = Some v ∧ q ≠ params self
         ∧ trace w' = trace w ++ [Call_train_and_predict train_idx test_idx;
                                  New_learner q v].
Proof.
  unfold _train_and_predict. intros H.
  apply bind_Ok_inv in H as ([] & w1 & Hlog & H). injection Hlog as <-.
  apply bind_Ok_inv in H as (trd & w2 & Htr & H).
  rewrite lift_run in Htr. injection Htr as _ <-.
  apply bind_Ok_inv in H as (ted & w3 & Hte & H).
  rewrite lift_run in Hte. injection Hte as _ <-.
  apply bind_Ok_inv in H as (q & w4 & Hcopy & H).
  unfold deepcopy in Hcopy. simpl in Hcopy.
  destruct (heap w !! params self) as [v|] eqn:Hv; [|done].
  injection Hcopy as <- <-.
  set (q := fresh (dom (heap w))) in *.
  assert (q ≠ params self) as Hq.
  { intros Heq. apply (is_fresh (dom (heap w))). fold q. rewrite Heq.
    apply elem_of_dom. by exists v. }
  apply bind_Ok_inv in H as (l & w5 & Hnew & H).
  unfold new_Learner, on_object in Hnew. simpl in Hnew.
  rewrite !lookup_insert_eq in Hnew. simpl in Hnew.
  injection Hnew as <- <-.
  apply bind_Ok_inv in H as (l' & w6 & Htrain & H).
  unfold on_object in Htrain. simpl in Htrain.
  rewrite lookup_insert_eq in Htrain. injection Htrain as <- <-.
  apply bind_Ok_inv in H as (preds & w7 & Hpred & H).
  unfold on_object in Hpred. simpl in Hpred.
  rewrite lookup_insert_eq in Hpred. injection Hpred as <- <-.
  apply bind_Ok_inv in H as (es & w8 & Hes & H).
  rewrite lift_run in Hes. injection Hes as _ <-.
  rewrite lift_run in H. injection H as _ <-.
  exists q, v. simpl. rewrite <- app_assoc. done.
Qed.
End Frame.

(** C6: whatever [cross_predict] and [cheat] do, and whether they return or
    raise, the hyperparameter object of the harness holds afterwards what it
    held before, and every learner instantiated on the way received an
    object of its own holding those same contents; a training unit that
    completes instantiates exactly one learner in this way.  The statement
    holds in every state, so it holds across any number of calls. *)
Theorem hyperparameters_never_mutated
    {Feat Label Pred Params RNG : Type}
    (self : CrossPredict Feat Label Pred Params) (w : world Params RNG) (v : Params) :
  heap w !! params self = Some v →
  (heap (cross_predict self w).2 !! params self = Some v
   ∧ ∃ evs, trace (cross_predict self w).2 = trace w ++ evs
            ∧ Forall (instantiates_copy (params self) v) evs)
  ∧ (heap (cheat self w).2 !! params self = Some v
     ∧ ∃ evs, trace (cheat self w).2 = trace w ++ evs
              ∧ Forall (instantiates_copy (params self) v) evs)
  ∧ (∀ train_idx test_idx recs w',
       _train_and_predict self train_idx test_idx w = (Ok recs, w') →
       heap w' !! params self = Some v
       ∧ ∃ q, q ≠ params self
              ∧ trace w' = trace w ++ [Call_train_and_predict train_idx test_idx;
                                       New_learner q v]).
Proof.
  intros Hv. split; [by apply cross_predict_frames|].
  split; [by apply cheat_frames|].
  intros train_idx test_idx recs w' Hrun. split.
  - pose proof (_train_and_predict_frames self train_idx test_idx w v Hv) as [H _].
    by rewrite Hrun in H.
  - apply _train_and_predict_Ok_trace in Hrun as (q & v' & Hv' & Hq & Ht).
    exists q. split; [done|]. congruence.
Qed.

(** ** Training units that complete *)


Section Units.
Context {Feat Label Pred Params RNG : Type}.
Implicit Types w : world Params RNG.
Implicit Types self : CrossPredict Feat Label Pred Params.

Lemma consistent_keys self R :
  consistent self R → keys self = map (key_row self) (seq 0 R).
Proof.
  intros (HX & Hy & Hg & Hkeys). unfold make_keys in Hkeys.
  case_decide; [|done]. injection Hkeys as <-. rewrite Hy.
  apply list_eq. intros i.
  rewrite lookup_zip_with, list_lookup_fmap.
  destruct (decide (i < R)) as [Hi|Hi].
  - destruct (lookup_lt_is_Some_2 (group (data self)) i) as [g Hgi]; [lia|].
    rewrite lookup_seq_lt by done. unfold key_row. simpl. rewrite Hgi. reflexivity.
  - rewrite lookup_seq_ge by lia. simpl.
    by destruct (group (data self) !! i).
Qed.

Lemma consistent_keys_lookup self R i :
  consistent self R → i < R → keys self !! i = Some (key_row self i).
Proof.
  intros Hc Hi. rewrite (consistent_keys self R Hc), list_lookup_fmap.
  by rewrite lookup_seq_lt.
Qed.

Lemma consistent_iloc_keys self R rows :
  consistent self R → Forall (λ i, i < R) rows →
  iloc (keys self) rows = Ok (map (key_row self) rows).
Proof.
  intros Hc Hrows. apply iloc_total.
  eapply Forall_impl; [exact Hrows|]. intros i Hi.
  by eapply consistent_keys_lookup.
Qed.



Lemma calls_app (t1 t2 : list (event Params)) :
  calls (t1 ++ t2) = calls t1 ++ calls t2.
Proof. apply omap_app. Qed.

End Units.

(** ** One fold, and the loop over essay sets *)

Section OneFold.
Context {Feat Label Pred Params RNG : Type}.
Implicit Types w : world Params RNG.
Implicit Types self : CrossPredict Feat Label Pred Params.

Lemma essay_set_key_rows self R rows :
  length (group (data self)) = R → Forall (λ i, i < R) rows →
  map essay_set (map (key_row self) rows) = omap (λ i, group (data self) !! i) rows.
Proof.
  intros Hg. induction 1 as [|i rows Hi _ IH]; [done|].
  destruct (lookup_lt_is_Some_2 (group (data self)) i) as [g Hgi]; [lia|].
  cbn [map omap list_omap]. unfold key_row at 1. simpl. rewrite Hgi. simpl.
  f_equal. exact IH.
Qed.

Lemma ref_filter_key_rows self R e rows :
  length (group (data self)) = R → Forall (λ i, i < R) rows →
  map ref (filter (λ r, essay_set r = e) (map (key_row self) rows))
  = rows_of self e rows.
Proof.
  intros Hg. unfold rows_of. induction 1 as [|i rows Hi _ IH]; [done|].
  destruct (lookup_lt_is_Some_2 (group (data self)) i) as [g Hgi]; [lia|].
  cbn [map]. rewrite !filter_cons. unfold key_row at 1. simpl. rewrite Hgi. simpl.
  destruct (decide (g = e)) as [->|Hne].
  - rewrite decide_True by done. simpl. by rewrite IH.
  - rewrite decide_False by congruence. exact IH.
Qed.

Lemma groupby_key_rows_keys self R rows :
  length (group (data self)) = R → Forall (λ i, i < R) rows →
  groups_keys (groupby essay_set (map (key_row self) rows)) = essay_sets_of self rows.
Proof.
  intros Hg Hrows. rewrite groupby_keys. unfold essay_sets_of.
  by erewrite essay_set_key_rows.
Qed.








Lemma printed_calls self k w : calls (trace (printed self k w)) = calls (trace w).
Proof.
  unfold printed. case_decide; [done|]. simpl.
  by rewrite calls_app, app_nil_r.
Qed.

Lemma printed_heap self k w : heap (printed self k w) = heap w.
Proof. unfold printed. by case_decide. Qed.


End OneFold.


(** ** All folds *)

Section AllFolds.
Context {Feat Label Pred Params RNG : Type}.
Implicit Types w : world Params RNG.
Implicit Types self : CrossPredict Feat Label Pred Params.



End AllFolds.


(** ** What construction guarantees *)

Section Constructed.
Context {Feat Label Pred Params RNG : Type}.
Implicit Types w : world Params RNG.
Implicit Types self : CrossPredict Feat Label Pred Params.

(** The count tables can only be built when there are folds and every
    fold has rows on the counted side. *)
Lemma count_table_Ok_nonempty self (side : Fold → list nat) tbl :
  count_table self side = Ok tbl →
  folds self ≠ [] ∧ ∀ f, f ∈ folds self → side f ≠ [].
Proof.
  unfold count_table. intros (frames_ & Hmap & Hcat)%result_bind_Ok.
  apply pd_concat_Ok in Hcat as [Hne _]. split.
  - intros Hnil. rewrite Hnil in Hmap. simpl in Hmap.
    injection Hmap as <-. done.
  - intros f (k & Hk)%list_elem_of_lookup Hnil.
    apply mapM_result_Ok in Hmap.
    assert (imap pair (folds self) !! k = Some (k, f)) as Hkf
      by (by rewrite list_lookup_imap, Hk).
    destruct (Forall2_lookup_l _ _ _ _ _ Hmap Hkf) as (fr & _ & Hfr).
    simpl in Hfr. rewrite Hnil in Hfr. unfold _count_per_essay_set in Hfr.
    by vm_compute in Hfr.
Qed.

Lemma CrossPredict_init_consistent
    (np_random_seed : nat → RNG)
    (make_test_folds : RNG → nat → list nat → option (list nat) * RNG)
    (d : Dataset Feat Label) (L : LearnerClass Feat Label Pred Params)
    (p : loc) (n_fold verbose_ : nat) w w' self :
  CrossPredict_init np_random_seed make_test_folds d L p n_fold verbose_ w
    = (Ok self, w') →
  data self = d ∧ params self = p ∧ Learner self = L
  ∧ consistent self (length (y d))
  ∧ folds self ≠ []
  ∧ ∀ f, f ∈ folds self →
         Forall (λ i, i < length (y d)) (train f)
         ∧ Forall (λ i, i < length (y d)) (test f)
         ∧ test f ≠ [].
Proof.
  intros Hinit.
  apply CrossPredict_init_Ok_inv in Hinit
    as (tf & s & Htf & HX & Hlen & Hkeys & Hfolds & Hd & Hp & HL & _ & _ & [tt Htt]).
  assert (length (group d) = length (y d)) as Hy.
  { unfold make_keys in Hkeys. case_decide; [lia | done]. }
  apply count_table_Ok_nonempty in Htt as [Hne Htest].
  split; [done|]. split; [done|]. split; [done|]. split.
  { unfold consistent. rewrite Hd. repeat split; [lia | done..]. }
  split; [done|].
  intros f Hf. split; [|split; [|by apply Htest]].
  - rewrite Hfolds in Hf. apply list_elem_of_fmap in Hf as (k & -> & _).
    apply Forall_forall. intros i [Hi _]%elem_of_train_fold. lia.
  - rewrite Hfolds in Hf. apply list_elem_of_fmap in Hf as (k & -> & _).
    apply Forall_forall. intros i [Hi _]%elem_of_test_fold. lia.
Qed.


End Constructed.


(** ** Cross prediction (C1) *)


Section CrossPredictOk.
Context {Feat Label Pred Params RNG : Type}.
Implicit Types w : world Params RNG.
Implicit Types self : CrossPredict Feat Label Pred Params.



End CrossPredictOk.


(** ** How failures surface (C8) *)

Lemma mapM_result_Raise {A B} (f : A → result B) (l : list A) (e : exn) :
  mapM f l = Raise e → ∃ a, a ∈ l ∧ f a = Raise e.
Proof.
  induction l as [|a l IH]; simpl; [discriminate|].
  destruct (f a) as [b|e'] eqn:Ha; simpl.
  - destruct (mapM f l) as [bs|e'] eqn:Hl; simpl; [discriminate|].
    intros [= ->]. destruct IH as (a' & Ha' & He); [done|].
    exists a'. split; [by right | done].
  - intros [= ->]. exists a. split; [left | done].
Qed.

Lemma iloc_Raise {A} (l : list A) (rows : list nat) (e : exn) :
  iloc l rows = Raise e → e = IndexError.
Proof.
  intros (i & _ & Hi)%mapM_result_Raise.
  destruct (l !! i); [discriminate | by injection Hi].
Qed.

Lemma loc_labels_Raise {A} (l : list A) (rows : list nat) (e : exn) :
  loc_labels l rows = Raise e → e = KeyError.
Proof.
  intros (i & _ & Hi)%mapM_result_Raise.
  destruct (l !! i); [discriminate | by injection Hi].
Qed.

Section Failures.
Context {Feat Label Pred Params RNG : Type}.
Implicit Types w : world Params RNG.
Implicit Types self : CrossPredict Feat Label Pred Params.
Local Abbreviation raises_only := (@raises_only Params RNG) (only parsing).

Lemma raises_only_bind Q {A B} (m : @M Params RNG A) (f : A → @M Params RNG B) :
  raises_only Q m → (∀ a, raises_only Q (f a)) → raises_only Q (m ≫= f).
Proof.
  intros Hm Hf w e w' [H|(a & w1 & _ & H)]%bind_Raise_inv.
  - by eapply Hm.
  - by eapply Hf.
Qed.

Lemma raises_only_mapM Q {A B} (f : A → @M Params RNG B) (l : list A) :
  (∀ a, raises_only Q (f a)) → raises_only Q (mapM f l).
Proof.
  intros Hf. induction l as [|a l IH]; cbn [mapM].
  - intros w e w' [=].
  - apply raises_only_bind; [apply Hf|]. intros b.
    apply raises_only_bind; [apply IH|]. intros bs w e w' [=].
Qed.

Lemma raises_only_lift Q {A} (r : result A) :
  (∀ e, r = Raise e → Q e) → raises_only Q (lift r).
Proof. intros Hr w e w' [= H _]. by apply Hr. Qed.

Lemma raises_only_on_object {A} (q : loc) (f : Params → A * Params) :
  raises_only not_assertion (on_object q f).
Proof.
  intros w e w'. unfold on_object.
  destruct (heap w !! q); intros [= <- _]; by intros m.
Qed.

Lemma select_Raise (d : Dataset Feat Label) rows e :
  select d rows = Raise e → not_assertion e.
Proof.
  unfold select.
  destruct (iloc (X d) rows) eqn:E1; simpl;
    [|intros [= <-]; apply iloc_Raise in E1 as ->; by intros m].
  destruct (iloc (y d) rows) eqn:E2; simpl;
    [|intros [= <-]; apply iloc_Raise in E2 as ->; by intros m].
  destruct (iloc (group d) rows) eqn:E3; simpl;
    [discriminate | intros [= <-]; apply iloc_Raise in E3 as ->; by intros m].
Qed.

Lemma _train_and_predict_raises self train_idx test_idx :
  raises_only not_assertion (_train_and_predict self train_idx test_idx).
Proof.
  unfold _train_and_predict.
  apply raises_only_bind; [intros w e w' [=]|]. intros _.
  apply raises_only_bind; [apply raises_only_lift, select_Raise|]. intros trd.
  apply raises_only_bind; [apply raises_only_lift, select_Raise|]. intros ted.
  apply raises_only_bind.
  { intros w e w'. unfold deepcopy.
    destruct (heap w !! params self); intros [= <- _]; by intros m. }
  intros q. apply raises_only_bind.
  { intros w e w'. unfold new_Learner.
    destruct (heap w !! q); [apply raises_only_on_object|].
    intros [= <- _]; by intros m. }
  intros l. apply raises_only_bind; [apply raises_only_on_object|]. intros l'.
  apply raises_only_bind; [apply raises_only_on_object|]. intros preds.
  apply raises_only_bind.
  { apply raises_only_lift. intros e ->%loc_labels_Raise. by intros m. }
  intros es. apply raises_only_lift. intros e. unfold DataFrame.
  case_decide; [discriminate|]. intros [= <-]. by intros m.
Qed.

Lemma get_group_Raise {A} (g : list (nat * list A)) (e0 : nat) (e : exn) :
  get_group g e0 = Raise e → not_assertion e.
Proof.
  unfold get_group. destruct (list_find _ _) as [[? [? ?]]|]; [discriminate|].
  intros [= <-]. by intros m.
Qed.

Lemma predict_each_essay_set_raises self trn_es tst_es essays :
  raises_only not_assertion (predict_each_essay_set self trn_es tst_es essays).
Proof.
  apply raises_only_mapM. intros e.
  apply raises_only_bind; [apply raises_only_lift, get_group_Raise|]. intros trn.
  apply raises_only_bind; [apply raises_only_lift, get_group_Raise|]. intros tst.
  apply _train_and_predict_raises.
Qed.

Lemma pd_concat_Raise {A} (frames_ : list (list A)) (e : exn) :
  pd_concat frames_ = Raise e → not_assertion e.
Proof. destruct frames_; [|discriminate]. intros [= <-]. by intros m. Qed.

(** The only assertion failure of a fold is the bare one of the check
    of the essay sets, raised before anything but the verbose line. *)
Lemma _train_and_predict_one_fold_assertion self k w m w' :
  _train_and_predict_one_fold self k w = (Raise (AssertionError m), w') →
  m = None ∧ w' = printed self k w.
Proof.
  unfold _train_and_predict_one_fold. rewrite bind_run.
  assert ((if decide (verbose self = 0) then mret ()
           else log (Print_training_fold k)) w = (Ok (), printed self k w)) as ->.
  { unfold printed. by case_decide. }
  intros [H|(f & w1 & Hf & H)]%bind_Raise_inv.
  { rewrite lift_run in H. by destruct (folds self !! k). }
  rewrite lift_run in Hf. injection Hf as _ <-.
  apply bind_Raise_inv in H as [H|(trn & w2 & Htrn & H)].
  { rewrite lift_run in H. injection H as H _. by apply iloc_Raise in H. }
  rewrite lift_run in Htrn. injection Htrn as _ <-.
  apply bind_Raise_inv in H as [H|(tst & w3 & Htst & H)].
  { rewrite lift_run in H. injection H as H _. by apply iloc_Raise in H. }
  rewrite lift_run in Htst. injection Htst as _ <-.
  apply bind_Raise_inv in H as [H|([] & w4 & Has & H)].
  { rewrite lift_run in H. unfold assert_ in H.
    destruct (keys_eq _ _); [discriminate|]. by injection H as <- <-. }
  exfalso.
  apply bind_Raise_inv in H as [H|(frames_ & w5 & _ & H)].
  - by apply predict_each_essay_set_raises in H; specialize (H m).
  - rewrite lift_run in H. injection H as H _.
    by apply pd_concat_Raise in H; specialize (H m).
Qed.

Lemma count_table_Raise self side e :
  count_table self side = Raise e → not_assertion e.
Proof.
  unfold count_table.
  destruct (mapM _ _) as [frames_|e'] eqn:E; simpl.
  - apply pd_concat_Raise.
  - intros [= <-].
    apply mapM_result_Raise in E as ([k f] & _ & E).
    unfold _count_per_essay_set in E. simpl in E.
    destruct (iloc (keys self) (side f)) as [sub|e''] eqn:E1; simpl in E.
    + case_decide; simpl in E; [|discriminate]. injection E as <-. by intros m.
    + injection E as <-. apply iloc_Raise in E1 as ->. by intros m.
Qed.

(** The only assertion failure of the structural check is the bare one
    of the tolerance, raised before anything is printed. *)
Lemma analyze_cross_predict_structure_assertion self w m w' :
  analyze_cross_predict_structure self w = (Raise (AssertionError m), w') →
  m = None ∧ w' = w.
Proof.
  unfold analyze_cross_predict_structure.
  intros [H|(tc & w1 & Htc & H)]%bind_Raise_inv.
  { rewrite lift_run in H. injection H as H _.
    by apply count_table_Raise in H; specialize (H m). }
  rewrite lift_run in Htc. injection Htc as _ <-.
  apply bind_Raise_inv in H as [H|(tt & w2 & Htt & H)].
  { rewrite lift_run in H. injection H as H _.
    by apply count_table_Raise in H; specialize (H m). }
  rewrite lift_run in Htt. injection Htt as _ <-.
  apply bind_Raise_inv in H as [H|(df & w3 & Hdf & H)].
  { rewrite lift_run in H. injection H as H <-. split; [|done].
    unfold check_ratios, assert_ in H.
    destruct (nan_lt _ _); simpl in H; [discriminate | by injection H]. }
  exfalso. rewrite lift_run in Hdf. injection Hdf as _ <-.
  apply bind_Raise_inv in H as [H|(? & w4 & _ & H)]; [|discriminate].
  by case_decide.
Qed.
End Failures.

Lemma not_assertion_bare (e : exn) : not_assertion e → bare e.
Proof. intros H. destruct e as [m| | | |]; [by destruct (H m) | done..]. Qed.

Section Bare.
Context {Feat Label Pred Params RNG : Type}.
Implicit Types w : world Params RNG.
Implicit Types self : CrossPredict Feat Label Pred Params.
Local Abbreviation raises_only := (@raises_only Params RNG) (only parsing).

Lemma _train_and_predict_one_fold_bare self k :
  raises_only bare (_train_and_predict_one_fold self k).
Proof.
  intros w e w' H. destruct e as [m| | | |]; try done.
  by apply _train_and_predict_one_fold_assertion in H as [-> _].
Qed.

Lemma analyze_cross_predict_structure_bare self :
  raises_only bare (analyze_cross_predict_structure self).
Proof.
  intros w e w' H. destruct e as [m| | | |]; try done.
  by apply analyze_cross_predict_structure_assertion in H as [-> _].
Qed.

Lemma cross_predict_bare self : raises_only bare (cross_predict self).
Proof.
  unfold cross_predict.
  apply raises_only_bind; [apply raises_only_mapM, _train_and_predict_one_fold_bare|].
  intros frames_. apply raises_only_bind.
  { apply raises_only_lift. intros e He%pd_concat_Raise. by apply not_assertion_bare. }
  intros preds w e w' [=].
Qed.

Lemma CrossPredict_init_bare
    (np_random_seed : nat → RNG)
    (make_test_folds : RNG → nat → list nat → option (list nat) * RNG)
    (d : Dataset Feat Label) (L : LearnerClass Feat Label Pred Params)
    (p : loc) (n_fold verbose_ : nat) :
  raises_only bare
    (CrossPredict_init np_random_seed make_test_folds d L p n_fold verbose_).
Proof.
  unfold CrossPredict_init.
  apply raises_only_bind; [intros w e w' [=]|]. intros _.
  apply raises_only_bind.
  { intros w e w'. unfold StratifiedKFold_split.
    case_decide; [|by intros [= <- _]].
    destruct (make_test_folds _ _ _) as [[tf|] s]; [|by intros [= <- _]].
    case_decide; [discriminate | by intros [= <- _]]. }
  intros fs. apply raises_only_bind.
  { apply raises_only_lift. intros e. unfold make_keys.
    case_decide; [discriminate | by intros [= <-]]. }
  intros ks. apply raises_only_bind; [apply analyze_cross_predict_structure_bare|].
  intros df w e w' [=].
Qed.
End Bare.

(** C8, as amended: no failure of the harness carries a fold index or a
    group label.  Whatever [cross_predict] or the construction raises has
    no message at all; the two failures the harness raises itself are
    plain assertion failures that surface at once: the group-mismatch
    failure of a fold when nothing but the verbose line of the fold has
    happened, the degenerate-split failure with the state unchanged. *)
Theorem failures_carry_no_context
    {Feat Label Pred Params RNG : Type}
    (np_random_seed : nat → RNG)
    (make_test_folds : RNG → nat → list nat → option (list nat) * RNG)
    (d : Dataset Feat Label) (L : LearnerClass Feat Label Pred Params)
    (p : loc) (n_fold verbose_ : nat)
    (self : CrossPredict Feat Label Pred Params) (k : nat)
    (w w' : world Params RNG) (e : exn) :
  (cross_predict self w = (Raise e, w')
   ∨ CrossPredict_init np_random_seed make_test_folds d L p n_fold verbose_ w
     = (Raise e, w')
   ∨ _train_and_predict_one_fold self k w = (Raise e, w')
   ∨ analyze_cross_predict_structure self w = (Raise e, w') →
   exn_message e = None)
  ∧ (_train_and_predict_one_fold self k w = (Raise e, w') →
     (∃ m, e = AssertionError m) →
     e = AssertionError None ∧ w' = printed self k w
     ∧ heap w' = heap w ∧ calls (trace w') = calls (trace w))
  ∧ (analyze_cross_predict_structure self w = (Raise e, w') →
     (∃ m, e = AssertionError m) →
     e = AssertionError None ∧ w' = w).
Proof.
  split; [|split].
  - intros [H|[H|[H|H]]].
    + by apply cross_predict_bare in H.
    + by apply CrossPredict_init_bare in H.
    + by apply _train_and_predict_one_fold_bare in H.
    + by apply analyze_cross_predict_structure_bare in H.
  - intros H [m ->].
    apply _train_and_predict_one_fold_assertion in H as [-> ->].
    split; [done|]. split; [done|].
    split; [apply printed_heap | apply printed_calls].
  - intros H [m ->].
    by apply analyze_cross_predict_structure_assertion in H as [-> ->].
Qed.

(** ** The statements at work on concrete data *)




Lemma folds_partition_rows_witness :
  ∃ self w1,
    Examples.init Examples.data12 3 Examples.world0 = (Ok self, w1)
    ∧ (∀ f i, f ∈ folds self → i ∈ train f → i ∉ test f)
    ∧ concat (map test (folds self)) ≡ₚ seq 0 12.
Proof.
  eexists _, _. split; [vm_compute; reflexivity|].
  edestruct (folds_partition_rows Examples.seed_state Examples.dealing_folds
               Examples.data12 Examples.CountingLearner 1%positive 3 0 Examples.world0)
    as (H1 & _ & H3).
  - vm_compute. reflexivity.
  - apply (bool_decide_unpack _). vm_compute. exact I.
  - split; [exact H1 | exact H3].
Defined.



Lemma hyperparameters_never_mutated_witness :
  ∃ self w1,
    Examples.init Examples.data12 3 Examples.world0 = (Ok self, w1)
    ∧ heap (cross_predict self w1).2 !! 1%positive = Some 7
    ∧ heap (cheat self w1).2 !! 1%positive = Some 7.
Proof.
  eexists _, _. split; [vm_compute; reflexivity|].
  lazymatch goal with
  | |- heap (cross_predict ?s ?w).2 !! _ = _ ∧ _ =>
      destruct (hyperparameters_never_mutated s w 7) as ((H1 & _) & (H2 & _) & _)
  end.
  - vm_compute. reflexivity.
  - split; [exact H1 | exact H2].
Defined.


(** C8 as first stated fails: the failure that [cross_predict] raises on
    the harness of 105 rows and 53 folds has no message, hence no fold
    index and no group label, and nothing was printed; the failure that
    construction raises on the same rows with 5 folds has no message
    either. *)
Lemma failure_without_context :
  ∃ self w1 e w2 e',
    Examples.init Examples.data105 53 Examples.world0 = (Ok self, w1)
    ∧ cross_predict self w1 = (Raise e, w2)
    ∧ ¬ is_Some (exn_message e)
    ∧ forallb (λ ev, match ev with Print_training_fold _ => false | _ => true end)
        (trace w2) = true
    ∧ (Examples.init Examples.data105 5 Examples.world0).1 = Raise e'
    ∧ ¬ is_Some (exn_message e').
Proof.
  eexists _, _, _, _, _. split; [vm_compute; reflexivity|].
  split; [vm_compute; reflexivity|].
  split; [by intros [? [=]]|].
  split; [vm_compute; reflexivity|].
  split; [vm_compute; reflexivity|]. by intros [? [=]].
Qed.

Lemma failures_carry_no_context_witness :
  ∃ e w',
    _train_and_predict_one_fold Examples.lopsided 0 Examples.world0 = (Raise e, w')
    ∧ exn_message e = None
    ∧ w' = add_event (Print_training_fold 0) Examples.world0.
Proof.
  eexists _, _. split; [vm_compute; reflexivity|].
  edestruct (failures_carry_no_context Examples.seed_state Examples.dealing_folds
               Examples.data12 Examples.CountingLearner 1%positive 3 0
               Examples.lopsided 0 Examples.world0)
    as (H1 & H2 & _).
  split.
  - apply H1. right. right. left. vm_compute. reflexivity.
  - destruct H2 as (_ & H2 & _).
    + vm_compute. reflexivity.
    + by eexists.
    + exact H2.
Defined.

Lemma unmatched_pair_is_ignored_witness :
  check_ratios
    [ {| c_fold := 0; c_essay_set := 1; count := 8 |};
      {| c_fold := 0; c_essay_set := 2; count := 3 |} ]
    [ {| c_fold := 0; c_essay_set := 1; count := 2 |} ]
  = check_ratios
      [ {| c_fold := 0; c_essay_set := 1; count := 8 |} ]
      [ {| c_fold := 0; c_essay_set := 1; count := 2 |} ].
Proof.
  apply (proj1 (proj2 (unmatched_pair_is_ignored _ _))
           [ {| c_fold := 0; c_essay_set := 1; count := 8 |} ]
           {| c_fold := 0; c_essay_set := 2; count := 3 |} []).
  - reflexivity.
  - apply (bool_decide_unpack _). vm_compute. exact I.
Defined.

(** * Further properties of the harness *)

(** ** The count tables *)

Lemma length_concat_sum {A} (ls : list (list A)) :
  length (concat ls) = sum_list (map length ls).
Proof.
  induction ls as [|l ls IH]; [done|]. simpl. by rewrite length_app, IH.
Qed.

Lemma StronglySorted_lt_Sorted_le (l : list nat) : StronglySorted lt l → Sorted le l.
Proof.
  intros H. apply StronglySorted_Sorted.
  induction H as [|x l _ IH Hx]; constructor; [done|].
  eapply Forall_impl; [exact Hx|]. simpl. lia.
Qed.

Lemma iloc_length {A} (l : list A) (rows : list nat) (xs : list A) :
  iloc l rows = Ok xs → length xs = length rows.
Proof. apply mapM_result_length. Qed.

Section CountTables.
Context {Feat Label Pred Params : Type}.
Implicit Types self : CrossPredict Feat Label Pred Params.

Lemma _count_per_essay_set_Ok_inv self k rows tbl :
  _count_per_essay_set self k rows = Ok tbl →
  ∃ sub, iloc (keys self) rows = Ok sub
         ∧ sub ≠ []
         ∧ tbl ≡ₚ map (λ eg, {| c_fold := k; c_essay_set := eg.1; count := length eg.2 |})
                    (groupby essay_set sub)
         ∧ Sorted count_le tbl.
Proof.
  unfold _count_per_essay_set. intros (sub & Hsub & H)%result_bind_Ok.
  apply result_bind_Ok in H as ([] & Hne & [= <-]).
  exists sub. split; [done|]. split.
  - intros ->. by vm_compute in Hne.
  - split; [apply merge_sort_Permutation | apply (Sorted_merge_sort count_le)].
Qed.
End CountTables.

(** X1: when [_count_per_essay_set] returns, the rows it was given exist
    and are not empty, and the table has exactly one line per essay set
    present among them, in ascending order of essay set; each line carries
    the fold number, and its count is the number of those rows that belong
    to its essay set, at least one; the counts add up to the number of
    rows. *)
Theorem _count_per_essay_set_counts
    {Feat Label Pred Params : Type}
    (self : CrossPredict Feat Label Pred Params) (k : nat) (rows : list nat)
    (tbl : list CountRow) :
  _count_per_essay_set self k rows = Ok tbl →
  ∃ sub,
    iloc (keys self) rows = Ok sub
    ∧ rows ≠ []
    ∧ map c_essay_set tbl = sort_uniq (map essay_set sub)
    ∧ Forall (λ r, c_fold r = k
                   ∧ count r = length (filter (λ x, essay_set x = c_essay_set r) sub)
                   ∧ 1 ≤ count r) tbl
    ∧ sum_list (map count tbl) = length rows.
Proof.
  intros H. apply _count_per_essay_set_Ok_inv in H as (sub & Hsub & Hne & Hperm & Hsorted).
  exists sub. split; [done|]. split.
  { intros ->. simpl in Hsub. by injection Hsub as <-. }
  unfold groupby in Hperm. rewrite map_map in Hperm. simpl in Hperm.
  split; [|split].
  - apply (Sorted_unique le).
    + by apply (Sorted_fmap c_essay_set count_le le).
    + apply StronglySorted_lt_Sorted_le, sort_uniq_sorted.
    + rewrite Hperm, map_map. simpl. by rewrite map_id.
  - rewrite Hperm. apply Forall_forall.
    intros r (e & -> & He)%list_elem_of_fmap. simpl.
    split; [done|]. split; [done|].
    apply elem_of_sort_uniq, list_elem_of_fmap in He as (x & -> & Hx).
    assert (x ∈ filter (λ x0, essay_set x0 = essay_set x) sub) as Hin
      by (by apply list_elem_of_filter).
    destruct (filter _ sub); [by apply elem_of_nil in Hin | simpl; lia].
  - rewrite Hperm, map_map. simpl.
    rewrite <- (iloc_length _ _ _ Hsub).
    rewrite <- (Permutation_length (groupby_concat essay_set sub)).
    rewrite length_concat_sum. unfold groupby. by rewrite !map_map.
Qed.

Lemma fold_left_Qmin_elem (s : list Q) (a : Q) : fold_left Qmin_ s a ∈ a :: s.
Proof.
  revert a. induction s as [|x s IH]; intros a; simpl; [left|].
  specialize (IH (Qmin_ a x)). apply elem_of_cons in IH as [->|IH].
  - unfold Qmin_. destruct (Qle_bool a x); [left | right; left].
  - right. by right.
Qed.

Lemma series_min_elem (s : list Q) (m : Q) : series_min s = Some m → m ∈ s.
Proof.
  destruct s as [|q s]; [discriminate|]. intros [= <-]. apply fold_left_Qmin_elem.
Qed.

Lemma ratio_positive (r : MergedRow) :
  1 ≤ train_count r → 1 ≤ test_count r → (0 < ratio r)%Q.
Proof.
  intros Ha Hb. unfold ratio. apply Qlt_shift_div_l.
  - unfold Qlt. simpl. lia.
  - rewrite Qmult_0_l. unfold Qlt. simpl. lia.
Qed.

Section CountTableRows.
Context {Feat Label Pred Params : Type}.
Implicit Types self : CrossPredict Feat Label Pred Params.

Lemma count_table_rows self (side : Fold → list nat) tbl :
  count_table self side = Ok tbl →
  Forall (λ r, c_fold r < length (folds self) ∧ 1 ≤ count r) tbl.
Proof.
  unfold count_table. intros (frames_ & Hmap & Hcat)%result_bind_Ok.
  apply pd_concat_Ok in Hcat as [_ ->].
  apply mapM_result_Ok in Hmap.
  apply Forall_concat. apply Forall_forall. intros fr Hfr.
  apply list_elem_of_lookup in Hfr as [i Hi].
  destruct (Forall2_lookup_r _ _ _ _ _ Hmap Hi) as ([k f] & Hkf & Hrun).
  simpl in Hrun. rewrite list_lookup_imap in Hkf.
  destruct (folds self !! i) as [f'|] eqn:Hf; [|done].
  injection Hkf as <- <-. apply lookup_lt_Some in Hf.
  apply _count_per_essay_set_Ok_inv in Hrun as (sub & _ & _ & Hperm & _).
  rewrite Hperm. apply Forall_forall.
  intros r (eg & -> & Heg)%list_elem_of_fmap. simpl. split; [done|].
  unfold groupby in Heg. apply list_elem_of_fmap in Heg as (e & -> & He).
  simpl. apply elem_of_sort_uniq, list_elem_of_fmap in He as (x & -> & Hx).
  assert (x ∈ filter (λ x0, essay_set x0 = essay_set x) sub) as Hin
    by (by apply list_elem_of_filter).
  destruct (filter _ sub); [by apply elem_of_nil in Hin | simpl; lia].
Qed.
End CountTableRows.

(** X2: the structural check never divides by zero.  Once the two count
    tables are built, every line of the joined table belongs to a fold of
    the harness and has a train count and a test count of at least one, so
    its ratio is positive; and the smallest ratio, by which the largest is
    divided, is positive. *)
Theorem joined_counts_positive
    {Feat Label Pred Params : Type}
    (self : CrossPredict Feat Label Pred Params) (tc tt : list CountRow) :
  count_table self train = Ok tc →
  count_table self test = Ok tt →
  (∀ r, r ∈ merge_inner tc tt →
        m_fold r < length (folds self)
        ∧ 1 ≤ train_count r ∧ 1 ≤ test_count r ∧ (0 < ratio r)%Q)
  ∧ (∀ mn, min_ratio (merge_inner tc tt) = Some mn → (0 < mn)%Q).
Proof.
  intros Htc%count_table_rows Htt%count_table_rows.
  assert (∀ r, r ∈ merge_inner tc tt →
               m_fold r < length (folds self)
               ∧ 1 ≤ train_count r ∧ 1 ≤ test_count r ∧ (0 < ratio r)%Q) as Hrows.
  { intros r (a & b & Ha & Hb & _ & ->)%elem_of_merge_inner.
    eapply Forall_forall in Htc as [Hk Hca]; [|exact Ha].
    eapply Forall_forall in Htt as [_ Hcb]; [|exact Hb].
    simpl. split; [done|]. split; [done|]. split; [done|].
    by apply ratio_positive. }
  split; [exact Hrows|].
  intros mn Hmn%series_min_elem.
  apply list_elem_of_fmap in Hmn as (r & -> & Hr). by apply Hrows.
Qed.

(** ** The shape of the folds *)

Lemma StronglySorted_filter {A} (R : relation A) (P : A → Prop)
    `{∀ x, Decision (P x)} (l : list A) :
  StronglySorted R l → StronglySorted R (filter P l).
Proof.
  induction 1 as [|x l _ IH Hx]; [constructor|].
  rewrite filter_cons. destruct (decide (P x)); [|done].
  constructor; [done|]. apply Forall_forall.
  intros z [_ Hz]%list_elem_of_filter. by eapply Forall_forall in Hx.
Qed.

Lemma StronglySorted_lt_seq (j n : nat) : StronglySorted lt (seq j n).
Proof.
  revert j. induction n as [|n IH]; intros j; simpl; constructor; [apply IH|].
  apply Forall_forall. intros i Hi%elem_of_seq. lia.
Qed.

Lemma mask_select_sorted (n_samples : nat) (mask : list bool) :
  StronglySorted lt (mask_select n_samples mask).
Proof. apply StronglySorted_filter, StronglySorted_lt_seq. Qed.

Lemma fold_of_test_folds_complement (test_folds : list nat) (i : nat) :
  train (fold_of_test_folds (length test_folds) test_folds i)
  ++ test (fold_of_test_folds (length test_folds) test_folds i)
  ≡ₚ seq 0 (length test_folds).
Proof.
  simpl. unfold mask_select.
  set (mask := map (λ v, bool_decide (v = i)) test_folds).
  rewrite (filter_ext_in (λ j, map negb mask !! j = Some true)
             (λ j, ¬ mask !! j = Some true)).
  - rewrite Permutation_app_comm. apply filter_app_complement.
  - intros j Hj%elem_of_seq. rewrite list_lookup_fmap.
    destruct (lookup_lt_is_Some_2 mask j) as [b Hb].
    { subst mask. rewrite length_map. lia. }
    rewrite Hb. simpl. destruct b; split; try done; by intros [=].
Qed.

Lemma concat_length_ge {A} (ls : list (list A)) :
  Forall (λ l, l ≠ []) ls → length ls ≤ length (concat ls).
Proof.
  induction 1 as [|l ls Hl _ IH]; [done|]. simpl. rewrite length_app.
  destruct l; [done|]. simpl. lia.
Qed.

Lemma test_folds_length_le (n_splits : nat) (test_folds : list nat) :
  length (concat (map (λ i, test (fold_of_test_folds (length test_folds) test_folds i))
                    (seq 0 n_splits)))
  ≤ length test_folds.
Proof.
  erewrite map_ext by (intros i; apply test_fold_filter).
  rewrite (concat_filter_keys (λ j, default 0 (test_folds !! j))) by apply NoDup_seq.
  etrans; [apply length_filter|]. by rewrite length_seq.
Qed.

(** X3: in a constructed harness there are exactly [n_fold] folds; in each
    of them the train indices and the test indices are strictly ascending,
    and train and test together are a rearrangement of [0, ..., R-1], so
    their sizes add up to R. *)
Theorem folds_are_sorted_complements
    {Feat Label Pred Params RNG : Type}
    (np_random_seed : nat → RNG)
    (make_test_folds : RNG → nat → list nat → option (list nat) * RNG)
    (d : Dataset Feat Label) (L : LearnerClass Feat Label Pred Params)
    (p : loc) (n_fold verbose_ : nat) (w w' : world Params RNG)
    (self : CrossPredict Feat Label Pred Params) :
  CrossPredict_init np_random_seed make_test_folds d L p n_fold verbose_ w = (Ok self, w') →
  length (folds self) = n_fold
  ∧ ∀ f, f ∈ folds self →
         StronglySorted lt (train f) ∧ StronglySorted lt (test f)
         ∧ train f ++ test f ≡ₚ seq 0 (length (y d))
         ∧ length (train f) + length (test f) = length (y d).
Proof.
  intros Hinit.
  apply CrossPredict_init_Ok_inv in Hinit
    as (tf & s & Htf & HX & Hlen & Hkeys & Hfolds & _).
  assert (length (y d) = length tf) as Hy.
  { unfold make_keys in Hkeys. case_decide; [lia | done]. }
  rewrite Hfolds, Hy, <- Hlen. split; [by rewrite length_map, length_seq|].
  intros f (k & -> & _)%list_elem_of_fmap.
  split; [apply mask_select_sorted|]. split; [apply mask_select_sorted|].
  pose proof (fold_of_test_folds_complement tf k) as Hperm.
  split; [done|].
  apply Permutation_length in Hperm. by rewrite length_app, length_seq in Hperm.
Qed.

(** X4: a harness can only be constructed on a dataset that has rows, with
    a fold count that does not exceed the number of rows, and every fold
    of a constructed harness has at least one train row and at least one
    test row; when the fold assignment stays below [n_fold], the fold
    count is at least two. *)
Theorem constructed_harness_is_not_degenerate
    {Feat Label Pred Params RNG : Type}
    (np_random_seed : nat → RNG)
    (make_test_folds : RNG → nat → list nat → option (list nat) * RNG)
    (d : Dataset Feat Label) (L : LearnerClass Feat Label Pred Params)
    (p : loc) (n_fold verbose_ : nat) (w w' : world Params RNG)
    (self : CrossPredict Feat Label Pred Params) :
  CrossPredict_init np_random_seed make_test_folds d L p n_fold verbose_ w = (Ok self, w') →
  0 < length (y d)
  ∧ 1 ≤ n_fold ≤ length (y d)
  ∧ (∀ f, f ∈ folds self → train f ≠ [] ∧ test f ≠ [])
  ∧ (Forall (λ v, v < n_fold)
       (default [] (make_test_folds (np_random_seed 0) n_fold (group d)).1) →
     2 ≤ n_fold).
Proof.
  intros Hinit.
  apply CrossPredict_init_Ok_inv in Hinit
    as (tf & s & Htf & HX & Hlen & Hkeys & Hfolds & _ & _ & _ & _ & [tc Htc] & [tt Htt]).
  assert (length (y d) = length tf) as Hy.
  { unfold make_keys in Hkeys. case_decide; [lia | done]. }
  apply count_table_Ok_nonempty in Htc as [_ Htrain].
  apply count_table_Ok_nonempty in Htt as [Hne Htest].
  assert (1 ≤ n_fold) as Hn.
  { destruct n_fold; [|lia]. by rewrite Hfolds in Hne. }
  assert (n_fold ≤ length (y d)) as HnR.
  { rewrite Hy. etrans; [|apply (test_folds_length_le n_fold tf)].
    etrans; [|apply concat_length_ge].
    - by rewrite !length_map, length_seq.
    - apply Forall_forall. intros l (k & -> & Hk)%list_elem_of_fmap.
      apply Htest. rewrite Hfolds, <- Hlen.
      apply list_elem_of_fmap. by exists k. }
  split; [lia|]. split; [lia|]. split; [by auto|].
  rewrite Htf. simpl. intros Hrange.
  destruct (decide (n_fold = 1)) as [->|]; [|lia]. exfalso.
  destruct (Htrain (fold_of_test_folds (length (X d)) tf 0)) as [].
  { rewrite Hfolds. by left. }
  destruct (train _) as [|j rows] eqn:E; [done|].
  assert (j ∈ train (fold_of_test_folds (length (X d)) tf 0)) as Hj
    by (rewrite E; left).
  apply elem_of_train_fold in Hj as (_ & v & Hv & Hne0).
  eapply Forall_lookup_1 in Hrange; [|exact Hv]. simpl in Hrange. lia.
Qed.

(** ** What the constructor stores and what it leaves alone *)

Lemma key_rows_columns (g s : list nat) :
  length g = length s →
  map essay_set (zip_with (λ e i, {| essay_set := e; ref := i |}) g s) = g
  ∧ map ref (zip_with (λ e i, {| essay_set := e; ref := i |}) g s) = s.
Proof.
  revert s. induction g as [|e g IH]; intros [|i s]; simpl; try done.
  intros [= Hlen]. destruct (IH s Hlen) as [-> ->]. done.
Qed.

(** X5: a constructed harness holds the dataset, the hyperparameter
    object, the learner class and the verbosity it was given; features,
    labels, groups and the key table all have R rows, and the key table
    maps row [i] to the group of row [i] and to [i] itself. *)
Theorem constructed_harness_registry
    {Feat Label Pred Params RNG : Type}
    (np_random_seed : nat → RNG)
    (make_test_folds : RNG → nat → list nat → option (list nat) * RNG)
    (d : Dataset Feat Label) (L : LearnerClass Feat Label Pred Params)
    (p : loc) (n_fold verbose_ : nat) (w w' : world Params RNG)
    (self : CrossPredict Feat Label Pred Params) :
  CrossPredict_init np_random_seed make_test_folds d L p n_fold verbose_ w = (Ok self, w') →
  (data self = d ∧ params self = p ∧ Learner self = L ∧ verbose self = verbose_)
  ∧ (length (X d) = length (y d) ∧ length (group d) = length (y d)
     ∧ length (keys self) = length (y d))
  ∧ map essay_set (keys self) = group d
  ∧ map ref (keys self) = seq 0 (length (y d)).
Proof.
  intros Hinit.
  apply CrossPredict_init_Ok_inv in Hinit
    as (tf & s & _ & HX & _ & Hkeys & _ & Hd & Hp & HL & Hv & _).
  unfold make_keys in Hkeys. case_decide as Hg; [|done]. injection Hkeys as Hkeys.
  destruct (key_rows_columns (group d) (seq 0 (length (y d)))) as [He Hr];
    [by rewrite length_seq|].
  rewrite Hkeys in He, Hr.
  split; [done|]. split; [|done].
  split; [lia|]. split; [done|].
  by rewrite <- (length_map ref), Hr, length_seq.
Qed.

Section Validator.
Context {Feat Label Pred Params RNG : Type}.
Implicit Types w : world Params RNG.
Implicit Types self : CrossPredict Feat Label Pred Params.

(** The structural check run in any state: its verdict does not look at
    the state, and it changes the state only by its verbose lines. *)
Lemma analyze_cross_predict_structure_run self w :
  analyze_cross_predict_structure self w
  = match tc ← count_table self train;
          tt ← count_table self test;
          check_ratios tc tt with
    | Ok df =>
        (Ok df,
         if decide (verbose self = 0) then w
         else add_event (Print_structure (length df) (min_ratio df) (max_ratio df)) w)
    | Raise e => (Raise e, w)
    end.
Proof.
  unfold analyze_cross_predict_structure.
  rewrite bind_run, lift_run.
  destruct (count_table self train) as [tc|?]; [|done]. simpl.
  rewrite bind_run, lift_run.
  destruct (count_table self test) as [tt|?]; [|done]. simpl.
  rewrite bind_run, lift_run.
  destruct (check_ratios tc tt) as [df|?]; [|done].
  rewrite bind_run. by case_decide.
Qed.

Lemma check_ratios_Ok_inv tc tt df :
  check_ratios tc tt = Ok df →
  df = merge_inner tc tt
  ∧ ∃ mx mn, max_ratio df = Some mx ∧ min_ratio df = Some mn
             ∧ (mx / mn < tolerance)%Q.
Proof.
  unfold check_ratios. intros ([] & Has & [= <-])%result_bind_Ok.
  split; [done|]. unfold assert_ in Has.
  destruct (max_ratio _) as [mx|], (min_ratio _) as [mn|]; simpl in Has; try done.
  exists mx, mn. split; [done|]. split; [done|].
  destruct (Qle_bool tolerance (mx / mn)) eqn:E; [done|].
  apply Qnot_le_lt. intros H%Qle_bool_iff. congruence.
Qed.

End Validator.


(** X7: construction trains nothing and writes to no object.  Whether it
    returns or raises, the heap is what it was and no training unit was
    started; the trace is unchanged unless the harness is verbose and
    construction succeeded, in which case exactly the line of the
    structural check was added. *)
Theorem construction_trains_nothing
    {Feat Label Pred Params RNG : Type}
    (np_random_seed : nat → RNG)
    (make_test_folds : RNG → nat → list nat → option (list nat) * RNG)
    (d : Dataset Feat Label) (L : LearnerClass Feat Label Pred Params)
    (p : loc) (n_fold verbose_ : nat) (w : world Params RNG) :
  let r := CrossPredict_init np_random_seed make_test_folds d L p n_fold verbose_ w in
  heap r.2 = heap w
  ∧ calls (trace r.2) = calls (trace w)
  ∧ (trace r.2 = trace w
     ∨ verbose_ ≠ 0
       ∧ ∃ self n mn mx, r.1 = Ok self
                         ∧ trace r.2 = trace w ++ [Print_structure n mn mx]).
Proof.
  intros r. subst r. unfold CrossPredict_init.
  unfold mbind, M_bind, seed, StratifiedKFold_split, lift. simpl.
  destruct (decide (length (X d) = length (group d))); [|by (simpl; auto)].
  destruct (make_test_folds (np_random_seed 0) n_fold (group d)) as [[tf|] s];
    [|by (simpl; auto)].
  destruct (decide (length tf = length (X d))); [|by (simpl; auto)].
  destruct (make_keys d) as [ks|?]; [|by (simpl; auto)].
  rewrite analyze_cross_predict_structure_run.
  destruct (_ ≫= _) as [df|?]; [|by (simpl; auto)].
  cbn [verbose]. destruct (decide (verbose_ = 0)) as [->|Hv]; [by (simpl; auto)|].
  simpl. split; [done|]. split; [by rewrite calls_app, app_nil_r|].
  right. split; [done|]. by eexists _, _, _, _.
Qed.

Lemma count_table_only_folds_and_keys
    {Feat Label Pred1 Params1 Pred2 Params2 : Type}
    (s1 : CrossPredict Feat Label Pred1 Params1)
    (s2 : CrossPredict Feat Label Pred2 Params2) (side : Fold → list nat) :
  folds s1 = folds s2 → keys s1 = keys s2 →
  count_table s1 side = count_table s2 side.
Proof.
  intros Hf Hk. unfold count_table, _count_per_essay_set. by rewrite Hf, Hk.
Qed.

(** X8: the folds do not depend on what is being cross-validated.  Two
    constructions on the same dataset with the same fold count, for any
    two learner classes, hyperparameter objects, verbosity levels and
    initial states, either both succeed, with the same folds and the same
    key table, or both raise, and then the same exception. *)
Theorem folds_do_not_depend_on_learner
    {Feat Label RNG Pred1 Params1 Pred2 Params2 : Type}
    (np_random_seed : nat → RNG)
    (make_test_folds : RNG → nat → list nat → option (list nat) * RNG)
    (d : Dataset Feat Label)
    (L1 : LearnerClass Feat Label Pred1 Params1)
    (L2 : LearnerClass Feat Label Pred2 Params2)
    (p1 p2 : loc) (n_fold verbose1 verbose2 : nat)
    (w1 : world Params1 RNG) (w2 : world Params2 RNG) :
  match (CrossPredict_init np_random_seed make_test_folds d L1 p1 n_fold verbose1 w1).1,
        (CrossPredict_init np_random_seed make_test_folds d L2 p2 n_fold verbose2 w2).1
  with
  | Ok s1, Ok s2 => folds s1 = folds s2 ∧ keys s1 = keys s2 ∧ data s1 = data s2
  | Raise e1, Raise e2 => e1 = e2
  | _, _ => False
  end.
Proof.
  unfold CrossPredict_init.
  unfold mbind, M_bind, seed, StratifiedKFold_split, lift. simpl.
  destruct (decide (length (X d) = length (group d))); [|done].
  destruct (make_test_folds (np_random_seed 0) n_fold (group d)) as [[tf|] s];
    [|done].
  destruct (decide (length tf = length (X d))); [|done].
  destruct (make_keys d) as [ks|?]; [|done].
  rewrite !analyze_cross_predict_structure_run.
  match goal with
  | |- context [count_table ?s1 train ≫= _] =>
      match goal with
      | |- context [count_table ?s2 train ≫= _] =>
          lazymatch s1 with
          | s2 => fail
          | _ => rewrite (count_table_only_folds_and_keys s1 s2 train) by done;
                 rewrite (count_table_only_folds_and_keys s1 s2 test) by done
          end
      end
  end.
  destruct (count_table _ train) as [tc|?]; [|done]. simpl.
  destruct (count_table _ test) as [tt|?]; [|done]. simpl.
  by destruct (check_ratios tc tt).
Qed.

(** ** What the training units are run on *)

Lemma get_group_groupby_Ok {A} (key : A → nat) (df : list A) (e : nat) (rows : list A) :
  get_group (groupby key df) e = Ok rows → rows = filter (λ r, key r = e) df.
Proof.
  unfold get_group.
  destruct (list_find _ _) as [[i [e' rows']]|] eqn:E; [|discriminate].
  intros [= <-]. apply list_find_Some in E as (Hi & He & _). simpl in He. subst e'.
  unfold groupby in Hi. rewrite list_lookup_fmap in Hi.
  destruct (sort_uniq (map key df) !! i); [|discriminate].
  simpl in Hi. by injection Hi as -> <-.
Qed.

Section Emits.
Context {Feat Label Pred Params RNG : Type}.
Implicit Types w : world Params RNG.
Implicit Types self : CrossPredict Feat Label Pred Params.
Implicit Types P : event Params → Prop.
Local Abbreviation emits := (@emits Params RNG) (only parsing).

Lemma emits_ret P {A} (a : A) : emits P (mret a : @M Params RNG A).
Proof. intros w. exists []. by rewrite app_nil_r. Qed.

Lemma emits_lift P {A} (r : result A) : emits P (lift r : @M Params RNG A).
Proof. intros w. exists []. by rewrite app_nil_r. Qed.

Lemma emits_bind P {A B} (m : @M Params RNG A) (f : A → @M Params RNG B) :
  emits P m → (∀ a, emits P (f a)) → emits P (m ≫= f).
Proof.
  intros Hm Hf w. rewrite bind_run. destruct (Hm w) as (evs1 & Ht1 & H1).
  destruct (m w) as [[a|e] w1]; [|by exists evs1].
  destruct (Hf a w1) as (evs2 & Ht2 & H2). exists (evs1 ++ evs2).
  simpl in Ht1. split; [by rewrite Ht2, Ht1, app_assoc | by apply Forall_app].
Qed.

Lemma emits_bind_lift P {A B} (r : result A) (f : A → @M Params RNG B) :
  (∀ a, r = Ok a → emits P (f a)) → emits P (lift r ≫= f).
Proof.
  intros Hf w. rewrite bind_run, lift_run. destruct r as [a|e].
  - by apply Hf.
  - exists []. by rewrite app_nil_r.
Qed.

Lemma emits_mapM_in P {A B} (f : A → @M Params RNG B) (l : list A) :
  (∀ a, a ∈ l → emits P (f a)) → emits P (mapM f l).
Proof.
  induction l as [|a l IH]; intros Hf; cbn [mapM]; [apply emits_ret|].
  apply emits_bind; [apply Hf; left|]. intros b.
  apply emits_bind; [|intros bs; apply emits_ret].
  apply IH. intros a' Ha'. apply Hf. by right.
Qed.

Lemma emits_log P (ev : event Params) : P ev → emits P (log ev).
Proof. intros Hev w. exists [ev]. split; [done|]. by constructor. Qed.

Lemma emits_on_object P {A} (q : loc) (f : Params → A * Params) :
  emits P (on_object q f).
Proof.
  intros w. exists []. rewrite app_nil_r. unfold on_object.
  by destruct (heap w !! q).
Qed.

Lemma emits_deepcopy P (p : loc) : emits P (deepcopy p).
Proof.
  intros w. exists []. rewrite app_nil_r. unfold deepcopy.
  by destruct (heap w !! p).
Qed.

Lemma emits_new_Learner P (L : LearnerClass Feat Label Pred Params) (q : loc) :
  (∀ v, P (New_learner q v)) → emits P (new_Learner L q).
Proof.
  intros HP w. unfold new_Learner, on_object.
  destruct (heap w !! q) as [v|] eqn:E; simpl.
  - rewrite E. simpl. exists [New_learner q v]. split; [done|]. by constructor.
  - exists []. by rewrite app_nil_r.
Qed.

Lemma _train_and_predict_emits P self train_idx test_idx :
  P (Call_train_and_predict train_idx test_idx) →
  (∀ q v, P (New_learner q v)) →
  emits P (_train_and_predict self train_idx test_idx).
Proof.
  intros Hcall Hnew. unfold _train_and_predict.
  apply emits_bind; [by apply emits_log|]. intros _.
  apply emits_bind; [apply emits_lift|]. intros trd.
  apply emits_bind; [apply emits_lift|]. intros ted.
  apply emits_bind; [apply emits_deepcopy|]. intros q.
  apply emits_bind; [by apply emits_new_Learner|]. intros l.
  apply emits_bind; [apply emits_on_object|]. intros l'.
  apply emits_bind; [apply emits_on_object|]. intros preds.
  apply emits_bind; [apply emits_lift|]. intros es. apply emits_lift.
Qed.

(** [cheat]: whatever the harness, train and test rows of a unit are the
    same list. *)
Lemma cheat_emits_in_sample self : emits in_sample (cheat self).
Proof.
  unfold cheat. apply emits_bind; [|intros fr; apply emits_lift].
  apply emits_mapM_in. intros e _.
  apply emits_bind_lift. intros trn Htrn.
  apply emits_bind_lift. intros tst Htst.
  apply _train_and_predict_emits; [|done]. simpl. congruence.
Qed.

Lemma consistent_iloc_keys_Ok self R rows xs :
  consistent self R → iloc (keys self) rows = Ok xs →
  Forall (λ i, i < R) rows ∧ xs = map (key_row self) rows.
Proof.
  intros Hc Hxs.
  assert (Forall (λ i, i < R) rows) as Hrows.
  { apply iloc_Ok_lookup in Hxs. apply Forall_forall. intros i Hi.
    apply list_elem_of_lookup in Hi as [j Hj].
    destruct (Forall2_lookup_l _ _ _ _ _ Hxs Hj) as (x & _ & Hx).
    apply lookup_lt_Some in Hx.
    by rewrite (consistent_keys self R Hc), length_map, length_seq in Hx. }
  split; [done|].
  rewrite (consistent_iloc_keys self R rows Hc Hrows) in Hxs. by injection Hxs.
Qed.



End Emits.



(** X10: every training unit that [cheat] starts, on any harness and
    whether the call goes on to return or to raise, is given one and the
    same list of indices as train rows and as test rows. *)
Theorem cheat_units_are_in_sample
    {Feat Label Pred Params RNG : Type}
    (self : CrossPredict Feat Label Pred Params) (w : world Params RNG) :
  ∃ evs, trace (cheat self w).2 = trace w ++ evs ∧ Forall in_sample evs.
Proof. apply cheat_emits_in_sample. Qed.

(** ** What the returned records hold *)

Lemma DataFrame_Ok_rows {Label Pred : Type}
    (Y : list Label) (E : list nat) (preds : list Pred) (truths : list Label)
    (idxs ess : list nat) (recs : list (Prediction Label Pred)) :
  DataFrame preds truths idxs ess = Ok recs →
  Forall2 (λ i t, Y !! i = Some t) idxs truths →
  Forall2 (λ i e, E !! i = Some e) idxs ess →
  map idx recs = idxs
  ∧ Forall (λ r, Y !! idx r = Some (truth r) ∧ E !! idx r = Some (pred_essay_set r)) recs.
Proof.
  unfold DataFrame. case_decide as Hlen; [|discriminate]. intros [= <-].
  destruct Hlen as (Hp & _ & _). revert preds Hp.
  intros preds Hp Ht. revert preds ess Hp.
  induction Ht as [|i t idxs truths Hit _ IH]; intros preds ess Hp He.
  - inversion He; subst. by destruct preds.
  - inversion He as [|? e ? ess' Hie He']; subst.
    destruct preds as [|pr preds]; [done|]. injection Hp as Hp.
    destruct (IH preds ess' Hp He') as [Hidx Hall]. simpl.
    split; [by rewrite Hidx|]. by constructor.
Qed.

Lemma select_Ok_y {Feat Label : Type} (d d' : Dataset Feat Label) (rows : list nat) :
  select d rows = Ok d' → Forall2 (λ i t, y d !! i = Some t) rows (y d').
Proof.
  unfold select. intros (xs & _ & H)%result_bind_Ok.
  apply result_bind_Ok in H as (ys & Hys & H).
  apply result_bind_Ok in H as (gs & _ & [= <-]). simpl.
  by apply iloc_Ok_lookup.
Qed.

Section Records.
Context {Feat Label Pred Params RNG : Type}.
Implicit Types w : world Params RNG.
Implicit Types self : CrossPredict Feat Label Pred Params.
Local Abbreviation produces := (@produces Params RNG) (only parsing).

Lemma produces_bind {A B} (Q1 : A → Prop) (Q : B → Prop)
    (m : @M Params RNG A) (f : A → @M Params RNG B) :
  produces Q1 m → (∀ a, Q1 a → produces Q (f a)) → produces Q (m ≫= f).
Proof.
  intros Hm Hf w b w' (a & w1 & Ha & Hb)%bind_Ok_inv.
  eapply Hf; [|exact Hb]. by eapply Hm.
Qed.

Lemma produces_any {A} (m : @M Params RNG A) : produces (λ _, True) m.
Proof. by intros w a w' _. Qed.

Lemma produces_lift {A} (Q : A → Prop) (r : result A) :
  (∀ a, r = Ok a → Q a) → produces Q (lift r).
Proof. intros Hr w a w' [= H _]. by apply Hr. Qed.

Lemma produces_mapM {A B} (Q : A → B → Prop) (f : A → @M Params RNG B) (l : list A) :
  (∀ a, produces (Q a) (f a)) → produces (Forall2 Q l) (mapM f l).
Proof.
  intros Hf. induction l as [|a l IH]; cbn [mapM].
  - intros w bs w' [= <- _]. constructor.
  - apply (produces_bind (Q a)); [apply Hf|]. intros b Hb.
    apply (produces_bind (Forall2 Q l)); [apply IH|]. intros bs Hbs.
    intros w bs' w' [= <- _]. by constructor.
Qed.

(** The records of one training unit: one per test index, in order, each
    with the label and the essay set found at its index. *)
Lemma _train_and_predict_produces self train_idx test_idx :
  produces (λ recs, map idx recs = test_idx ∧ Forall (from_row self) recs)
    (_train_and_predict self train_idx test_idx).
Proof.
  unfold _train_and_predict.
  apply (produces_bind (λ _, True)); [apply produces_any|]. intros _ _.
  apply (produces_bind (λ _, True)); [apply produces_any|]. intros trd _.
  apply (produces_bind (λ ted, select (data self) test_idx = Ok ted)).
  { by apply produces_lift. }
  intros ted Hted%select_Ok_y.
  apply (produces_bind (λ _, True)); [apply produces_any|]. intros q _.
  apply (produces_bind (λ _, True)); [apply produces_any|]. intros l _.
  apply (produces_bind (λ _, True)); [apply produces_any|]. intros l' _.
  apply (produces_bind (λ _, True)); [apply produces_any|]. intros preds _.
  apply (produces_bind
           (λ es, loc_labels (map essay_set (keys self)) test_idx = Ok es)).
  { by apply produces_lift. }
  intros es Hes. apply produces_lift. intros recs Hrecs.
  eapply DataFrame_Ok_rows in Hrecs; [exact Hrecs | exact Hted |].
  apply mapM_result_Ok in Hes. eapply Forall2_impl; [exact Hes|].
  intros i e. simpl. destruct (map essay_set (keys self) !! i); [|done].
  by intros [= ->].
Qed.

Lemma predict_each_essay_set_produces self trn_es tst_es essays :
  produces
    (Forall2 (λ e recs,
                ∃ tst, get_group tst_es e = Ok tst
                       ∧ map idx recs = map ref tst ∧ Forall (from_row self) recs)
       essays)
    (predict_each_essay_set self trn_es tst_es essays).
Proof.
  apply produces_mapM. intros e.
  apply (produces_bind (λ _, True)); [apply produces_any|]. intros trn _.
  apply (produces_bind (λ tst, get_group tst_es e = Ok tst)).
  { by apply produces_lift. }
  intros tst Htst w recs w' Hrun.
  apply _train_and_predict_produces in Hrun as [Hidx Hall]. by exists tst.
Qed.

Lemma Forall2_concat_from_row self {A} (Q : A → list (Prediction Label Pred) → Prop)
    (l : list A) (frames_ : list (list (Prediction Label Pred))) :
  Forall2 Q l frames_ → (∀ a recs, Q a recs → Forall (from_row self) recs) →
  Forall (from_row self) (concat frames_).
Proof.
  intros H HQ. apply Forall_concat.
  induction H as [|a recs l frs Hq _ IH]; constructor; [by eapply HQ | done].
Qed.

Lemma _train_and_predict_one_fold_produces self k :
  produces (Forall (from_row self)) (_train_and_predict_one_fold self k).
Proof.
  unfold _train_and_predict_one_fold.
  apply (produces_bind (λ _, True)); [apply produces_any|]. intros _ _.
  apply (produces_bind (λ _, True)); [apply produces_any|]. intros f _.
  apply (produces_bind (λ _, True)); [apply produces_any|]. intros trn_rows _.
  apply (produces_bind (λ _, True)); [apply produces_any|]. intros tst_rows _.
  apply (produces_bind (λ _, True)); [apply produces_any|]. intros _ _.
  eapply produces_bind; [apply predict_each_essay_set_produces|].
  intros frames_ Hfr. apply produces_lift. intros recs [_ ->]%pd_concat_Ok.
  eapply Forall2_concat_from_row; [exact Hfr|]. by intros e fr (tst & _ & _ & H).
Qed.

Lemma cross_predict_produces self :
  produces (Forall (from_row self)) (cross_predict self).
Proof.
  unfold cross_predict.
  eapply produces_bind.
  { apply (produces_mapM (λ _, Forall (from_row self))).
    intros k. apply _train_and_predict_one_fold_produces. }
  intros frames_ Hfr.
  apply (produces_bind (Forall (from_row self))).
  - apply produces_lift. intros recs [_ ->]%pd_concat_Ok.
    eapply Forall2_concat_from_row; [exact Hfr | done].
  - intros preds Hpreds w recs w' [= <- _].
    by rewrite merge_sort_Permutation.
Qed.

Lemma cheat_produces self :
  produces
    (λ recs, ∃ frames_,
       recs = concat frames_
       ∧ Forall2 (λ e fr,
                    ∃ tst, get_group (groupby essay_set (keys self)) e = Ok tst
                           ∧ map idx fr = map ref tst ∧ Forall (from_row self) fr)
           (groups_keys (groupby essay_set (keys self))) frames_)
    (cheat self).
Proof.
  unfold cheat. eapply produces_bind; [apply predict_each_essay_set_produces|].
  intros frames_ Hfr. apply produces_lift. intros recs [_ ->]%pd_concat_Ok.
  by exists frames_.
Qed.

Lemma consistent_essay_set_column self R :
  consistent self R → map essay_set (keys self) = group (data self).
Proof.
  intros (_ & Hy & Hg & Hkeys). unfold make_keys in Hkeys.
  case_decide; [|done]. injection Hkeys as <-.
  apply key_rows_columns. by rewrite length_seq.
Qed.

Lemma from_row_aligned self R r :
  consistent self R → from_row self r → aligned (data self) r.
Proof.
  intros Hc [Hy He]. split; [done|].
  by rewrite <- (consistent_essay_set_column self R Hc).
Qed.
End Records.

(** X11: on a constructed harness, every record that [cross_predict] or
    [cheat] returns carries, next to its index, the label and the group
    that the dataset has in the row of that index. *)
Theorem records_carry_their_row
    {Feat Label Pred Params RNG : Type}
    (np_random_seed : nat → RNG)
    (make_test_folds : RNG → nat → list nat → option (list nat) * RNG)
    (d : Dataset Feat Label) (L : LearnerClass Feat Label Pred Params)
    (p : loc) (n_fold verbose_ : nat) (w0 w1 w w' : world Params RNG)
    (self : CrossPredict Feat Label Pred Params)
    (preds : list (Prediction Label Pred)) :
  CrossPredict_init np_random_seed make_test_folds d L p n_fold verbose_ w0
    = (Ok self, w1) →
  cross_predict self w = (Ok preds, w') ∨ cheat self w = (Ok preds, w') →
  Forall (aligned d) preds.
Proof.
  intros Hinit Hrun.
  apply CrossPredict_init_consistent in Hinit as (Hd & _ & _ & Hc & _).
  rewrite <- Hd. eapply Forall_impl; [|intros r; by apply (from_row_aligned self _ r Hc)].
  destruct Hrun as [Hrun|Hrun].
  - by apply cross_predict_produces in Hrun.
  - apply cheat_produces in Hrun as (frames_ & -> & Hfr).
    eapply Forall2_concat_from_row; [exact Hfr|]. by intros e fr (tst & _ & _ & H).
Qed.

Section CheatOrder.
Context {Feat Label Pred Params RNG : Type}.
Implicit Types w : world Params RNG.
Implicit Types self : CrossPredict Feat Label Pred Params.

Lemma cheat_Ok_order self R w recs w' :
  consistent self R → cheat self w = (Ok recs, w') →
  map (λ r, (pred_essay_set r, idx r)) recs
  = concat (map (λ e, map (pair e) (rows_of self e (seq 0 R)))
              (essay_sets_of self (seq 0 R))).
Proof.
  intros Hc Hrun. destruct (Hc) as (_ & _ & Hg & _).
  assert (Forall (λ i, i < R) (seq 0 R)) as Hall.
  { apply Forall_forall. intros i Hi%elem_of_seq. lia. }
  apply cheat_produces in Hrun as (frames_ & -> & Hfr).
  rewrite (consistent_keys self R Hc) in Hfr.
  rewrite (groupby_key_rows_keys self R) in Hfr by done.
  induction Hfr as [|e fr es frs (tst & Htst & Hidx & Hrows) _ IH]; [done|].
  simpl. rewrite map_app, IH. f_equal.
  apply get_group_groupby_Ok in Htst as ->.
  rewrite (ref_filter_key_rows self R) in Hidx by done.
  rewrite <- Hidx, map_map. apply map_ext_in. intros r Hr.
  f_equal. apply list_elem_of_In in Hr.
  eapply Forall_forall in Hrows as Hrow; [|exact Hr].
  apply (from_row_aligned self R r Hc) in Hrow as [_ Hgr].
  assert (idx r ∈ rows_of self e (seq 0 R)) as Hin.
  { rewrite <- Hidx. apply list_elem_of_fmap. by exists r. }
  apply list_elem_of_filter in Hin as [He _]. congruence.
Qed.

Lemma mapM_Raise_inv {A B} (f : A → @M Params RNG B) (l : list A) w e w' :
  mapM f l w = (Raise e, w') → ∃ a w0, a ∈ l ∧ f a w0 = (Raise e, w').
Proof.
  revert w. induction l as [|a l IH]; intros w; cbn [mapM]; [discriminate|].
  intros [H|(b & w1 & _ & H)]%bind_Raise_inv.
  - exists a, w. split; [left | done].
  - apply bind_Raise_inv in H as [H|(bs & w2 & _ & H)]; [|discriminate].
    destruct (IH w1 H) as (a' & w0 & Ha' & Hrun).
    exists a', w0. split; [by right | done].
Qed.

Lemma mapM_Ok_length {A B} (f : A → @M Params RNG B) (l : list A) w bs w' :
  mapM f l w = (Ok bs, w') → length bs = length l ∧ (l = [] → w' = w).
Proof.
  revert w bs. induction l as [|a l IH]; intros w bs; cbn [mapM].
  - by intros [= <- <-].
  - intros (b & w1 & _ & H)%bind_Ok_inv.
    apply bind_Ok_inv in H as (bs' & w2 & Hbs & [= <- <-]).
    apply IH in Hbs as [Hlen _]. split; [simpl; lia | done].
Qed.
End CheatOrder.

(** X12: on a constructed harness [cheat], when it returns, returns the
    records essay set by essay set, in ascending order of essay set, and
    within an essay set in the order of the rows of the dataset: unlike
    [cross_predict], it does not restore the original row order. *)
Theorem cheat_groups_by_essay_set
    {Feat Label Pred Params RNG : Type}
    (np_random_seed : nat → RNG)
    (make_test_folds : RNG → nat → list nat → option (list nat) * RNG)
    (d : Dataset Feat Label) (L : LearnerClass Feat Label Pred Params)
    (p : loc) (n_fold verbose_ : nat) (w0 w1 w w' : world Params RNG)
    (self : CrossPredict Feat Label Pred Params)
    (recs : list (Prediction Label Pred)) :
  CrossPredict_init np_random_seed make_test_folds d L p n_fold verbose_ w0
    = (Ok self, w1) →
  cheat self w = (Ok recs, w') →
  map (λ r, (pred_essay_set r, idx r)) recs
  = concat (map (λ e, map (pair e) (rows_of self e (seq 0 (length (y d)))))
              (essay_sets_of self (seq 0 (length (y d))))).
Proof.
  intros Hinit Hrun.
  apply CrossPredict_init_consistent in Hinit as (_ & _ & _ & Hc & _).
  by apply (cheat_Ok_order self (length (y d)) w recs w').
Qed.

(** X13: [cross_predict] never returns a partial result.  When it raises,
    either the harness has no fold, and it raises [ValueError] with the
    state unchanged, or one of its folds raised that very exception, and
    the state is the one in which that fold raised: nothing ran after the
    failing fold. *)
Theorem cross_predict_stops_at_failing_fold
    {Feat Label Pred Params RNG : Type}
    (self : CrossPredict Feat Label Pred Params)
    (w w' : world Params RNG) (e : exn) :
  cross_predict self w = (Raise e, w') →
  (folds self = [] ∧ e = ValueError ∧ w' = w)
  ∨ ∃ k w0, k < length (folds self)
            ∧ _train_and_predict_one_fold self k w0 = (Raise e, w').
Proof.
  unfold cross_predict.
  intros [H|(frames_ & w1 & Hmap & H)]%bind_Raise_inv.
  - right. apply mapM_Raise_inv in H as (k & w0 & Hk%elem_of_seq & Hrun).
    exists k, w0. split; [lia | done].
  - left. apply bind_Raise_inv in H as [H|(preds & w2 & _ & H)]; [|discriminate].
    rewrite lift_run in H. injection H as H <-.
    apply mapM_Ok_length in Hmap as [Hlen Hw].
    destruct frames_; [|discriminate]. injection H as <-.
    rewrite length_seq in Hlen. simpl in Hlen.
    assert (folds self = []) as Hnil by (by destruct (folds self)).
    split; [done|]. split; [done|]. apply Hw. by rewrite Hnil.
Qed.

(** ** The joined table, line by line *)

Lemma elem_of_concat {A} (x : A) (ls : list (list A)) :
  x ∈ concat ls ↔ ∃ l, x ∈ l ∧ l ∈ ls.
Proof.
  rewrite list_elem_of_In, in_concat. split.
  - intros (l & Hl & Hx). exists l. by rewrite !list_elem_of_In.
  - intros (l & Hx & Hl). exists l. by rewrite <- !list_elem_of_In.
Qed.

Section JoinedTable.
Context {Feat Label Pred Params : Type}.
Implicit Types self : CrossPredict Feat Label Pred Params.

Lemma count_table_elem self (side : Fold → list nat) tbl a :
  count_table self side = Ok tbl →
  a ∈ tbl ↔
  ∃ f sub, folds self !! c_fold a = Some f
           ∧ iloc (keys self) (side f) = Ok sub
           ∧ c_essay_set a ∈ map essay_set sub
           ∧ count a = length (filter (λ x, essay_set x = c_essay_set a) sub).
Proof.
  unfold count_table. intros (frames_ & Hmap & Hcat)%result_bind_Ok.
  apply pd_concat_Ok in Hcat as [_ ->].
  apply mapM_result_Ok in Hmap.
  assert (∀ k f fr, folds self !! k = Some f → frames_ !! k = Some fr →
            ∃ sub, iloc (keys self) (side f) = Ok sub
                   ∧ ∀ a, a ∈ fr ↔
                          c_fold a = k ∧ c_essay_set a ∈ map essay_set sub
                          ∧ count a = length (filter (λ x, essay_set x = c_essay_set a) sub))
    as Hfr.
  { intros k f fr Hf Hk.
    assert (imap pair (folds self) !! k = Some (k, f)) as Hkf
      by (by rewrite list_lookup_imap, Hf).
    destruct (Forall2_lookup_l _ _ _ _ _ Hmap Hkf) as (fr' & Hfr' & Hrun).
    rewrite Hk in Hfr'. injection Hfr' as <-. simpl in Hrun.
    apply _count_per_essay_set_Ok_inv in Hrun as (sub & Hsub & _ & Hperm & _).
    exists sub. split; [done|]. intros a'. rewrite Hperm.
    unfold groupby. rewrite map_map. simpl. rewrite list_elem_of_fmap. split.
    - intros (e & -> & He). apply (proj1 (elem_of_sort_uniq _ _)) in He. simpl.
      split; [reflexivity|]. split; [exact He | reflexivity].
    - intros (Hk' & He & Hc). exists (c_essay_set a'). split.
      + destruct a'. simpl in *. by subst.
      + by apply elem_of_sort_uniq. }
  rewrite elem_of_concat. split.
  - intros (fr & Ha & Hin). apply list_elem_of_lookup in Hin as [k Hk].
    destruct (Forall2_lookup_r _ _ _ _ _ Hmap Hk) as ([k' f] & Hkf & _).
    rewrite list_lookup_imap in Hkf.
    destruct (folds self !! k) as [f'|] eqn:Hf; [|done]. clear Hkf.
    destruct (Hfr k f' fr Hf Hk) as (sub & Hsub & Hiff).
    destruct (proj1 (Hiff a) Ha) as (Hka & He & Hc). exists f', sub. by rewrite Hka.
  - intros (f & sub & Hf & Hsub & He & Hc).
    assert (imap pair (folds self) !! c_fold a = Some (c_fold a, f)) as Hkf
      by (by rewrite list_lookup_imap, Hf).
    destruct (Forall2_lookup_l _ _ _ _ _ Hmap Hkf) as (fr & Hk & _).
    exists fr. split; [|by eapply list_elem_of_lookup_2].
    destruct (Hfr (c_fold a) f fr Hf Hk) as (sub' & Hsub' & Hiff).
    rewrite Hsub in Hsub'. injection Hsub' as <-. by apply Hiff.
Qed.

Lemma consistent_count_table_elem self R (side : Fold → list nat) tbl a :
  consistent self R → count_table self side = Ok tbl →
  a ∈ tbl ↔
  ∃ f, folds self !! c_fold a = Some f
       ∧ present self (c_essay_set a) (side f)
       ∧ count a = length (rows_of self (c_essay_set a) (side f)).
Proof.
  intros Hc Htbl. destruct (Hc) as (_ & _ & Hg & _).
  rewrite (count_table_elem self side tbl a Htbl). split.
  - intros (f & sub & Hf & Hsub & He & Hcount). exists f. split; [done|].
    apply (consistent_iloc_keys_Ok self R) in Hsub as [Hrows ->]; [|done].
    rewrite (essay_set_key_rows self R) in He by done.
    split; [by apply list_elem_of_omap in He|].
    rewrite Hcount, <- (ref_filter_key_rows self R) by done.
    by rewrite length_map.
  - intros (f & Hf & He & Hcount). exists f, (map (key_row self) (side f)).
    assert (Forall (λ i, i < R) (side f)) as Hrows.
    { assert (f ∈ folds self) as Hin by (by eapply list_elem_of_lookup_2).
      apply list_elem_of_lookup in Hin as [k Hk].
      unfold count_table in Htbl.
      apply result_bind_Ok in Htbl as (frames_ & Hmap & _).
      apply mapM_result_Ok in Hmap.
      assert (imap pair (folds self) !! k = Some (k, f)) as Hkf
        by (by rewrite list_lookup_imap, Hk).
      destruct (Forall2_lookup_l _ _ _ _ _ Hmap Hkf) as (fr & _ & Hrun).
      simpl in Hrun.
      apply _count_per_essay_set_Ok_inv in Hrun as (sub & Hsub & _).
      by apply (consistent_iloc_keys_Ok self R) in Hsub as [? _]. }
    split; [done|]. split; [by apply (consistent_iloc_keys self R)|].
    rewrite (essay_set_key_rows self R) by done.
    split; [by apply list_elem_of_omap|].
    rewrite Hcount, <- (ref_filter_key_rows self R) by done.
    by rewrite length_map.
Qed.
End JoinedTable.

(** X14: the table that the structural check of a constructed harness
    returns has a line for fold [k] and essay set [e] exactly when [e] is
    present both among the train rows and among the test rows of fold [k];
    the train count and the test count of the line are the numbers of train
    rows and of test rows of fold [k] that belong to [e]. *)
Theorem joined_table_lines
    {Feat Label Pred Params RNG : Type}
    (np_random_seed : nat → RNG)
    (make_test_folds : RNG → nat → list nat → option (list nat) * RNG)
    (d : Dataset Feat Label) (L : LearnerClass Feat Label Pred Params)
    (p : loc) (n_fold verbose_ : nat) (w0 w1 w w' : world Params RNG)
    (self : CrossPredict Feat Label Pred Params) (df : list MergedRow)
    (r : MergedRow) :
  CrossPredict_init np_random_seed make_test_folds d L p n_fold verbose_ w0
    = (Ok self, w1) →
  analyze_cross_predict_structure self w = (Ok df, w') →
  r ∈ df ↔
  ∃ f, folds self !! m_fold r = Some f
       ∧ present self (m_essay_set r) (train f)
       ∧ present self (m_essay_set r) (test f)
       ∧ train_count r = length (rows_of self (m_essay_set r) (train f))
       ∧ test_count r = length (rows_of self (m_essay_set r) (test f)).
Proof.
  intros Hinit Hrun.
  apply CrossPredict_init_consistent in Hinit as (_ & _ & _ & Hc & _).
  rewrite analyze_cross_predict_structure_run in Hrun.
  destruct (count_table self train) as [tc|?] eqn:Htc; [|done].
  destruct (count_table self test) as [tt|?] eqn:Htt; [|done]. simpl in Hrun.
  destruct (check_ratios tc tt) as [df'|?] eqn:Hdf; [|done].
  injection Hrun as <- _. apply check_ratios_Ok_inv in Hdf as [-> _].
  rewrite elem_of_merge_inner. split.
  - intros (a & b & Ha & Hb & [Hk He] & ->). simpl.
    apply (consistent_count_table_elem self _ train tc a Hc Htc) in Ha
      as (f & Hf & Hpa & Hca).
    apply (consistent_count_table_elem self _ test tt b Hc Htt) in Hb
      as (f' & Hf' & Hpb & Hcb).
    rewrite <- Hk, Hf in Hf'. injection Hf' as <-. rewrite <- He in Hpb, Hcb.
    by exists f.
  - intros (f & Hf & Hpa & Hpb & Hca & Hcb).
    exists {| c_fold := m_fold r; c_essay_set := m_essay_set r; count := train_count r |},
           {| c_fold := m_fold r; c_essay_set := m_essay_set r; count := test_count r |}.
    split; [|split; [|split]].
    + apply (consistent_count_table_elem self _ train tc _ Hc Htc). by exists f.
    + apply (consistent_count_table_elem self _ test tt _ Hc Htt). by exists f.
    + done.
    + by destruct r.
Qed.


(** ** The further properties at work on concrete data *)

Lemma _count_per_essay_set_counts_witness :
  ∃ tbl,
    _count_per_essay_set Examples.lopsided 0 [0; 1; 2] = Ok tbl
    ∧ map c_essay_set tbl = [1; 2]
    ∧ sum_list (map count tbl) = 3.
Proof.
  eexists. split; [vm_compute; reflexivity|].
  edestruct (_count_per_essay_set_counts Examples.lopsided 0 [0; 1; 2])
    as (sub & Hsub & _ & Hsets & _ & Hsum).
  - vm_compute. reflexivity.
  - split; [|exact Hsum].
    etrans; [exact Hsets|].
    assert (Ok sub = Ok (keys Examples.lopsided)) as [= ->]
      by (rewrite <- Hsub; vm_compute; reflexivity).
    vm_compute. reflexivity.
Defined.

Lemma joined_counts_positive_witness :
  ∃ tc tt,
    count_table Examples.lopsided train = Ok tc
    ∧ count_table Examples.lopsided test = Ok tt
    ∧ ∀ r, r ∈ merge_inner tc tt → 1 ≤ test_count r ∧ (0 < ratio r)%Q.
Proof.
  eexists _, _. split; [vm_compute; reflexivity|].
  split; [vm_compute; reflexivity|].
  edestruct (joined_counts_positive Examples.lopsided) as [H _].
  - vm_compute. reflexivity.
  - vm_compute. reflexivity.
  - intros r Hr. destruct (H r Hr) as (_ & _ & H1 & H2). split; [exact H1 | exact H2].
Defined.

Lemma folds_are_sorted_complements_witness :
  ∃ self w1,
    Examples.init Examples.data12 3 Examples.world0 = (Ok self, w1)
    ∧ length (folds self) = 3
    ∧ ∀ f, f ∈ folds self → length (train f) + length (test f) = 12.
Proof.
  eexists _, _. split; [vm_compute; reflexivity|].
  edestruct (folds_are_sorted_complements Examples.seed_state Examples.dealing_folds
               Examples.data12 Examples.CountingLearner 1%positive 3 0 Examples.world0)
    as (H1 & H2).
  - vm_compute. reflexivity.
  - split; [exact H1|]. intros f Hf. destruct (H2 f Hf) as (_ & _ & _ & H). exact H.
Defined.

Lemma constructed_harness_is_not_degenerate_witness :
  ∃ self w1,
    Examples.init Examples.data12 3 Examples.world0 = (Ok self, w1)
    ∧ ∀ f, f ∈ folds self → train f ≠ [] ∧ test f ≠ [].
Proof.
  eexists _, _. split; [vm_compute; reflexivity|].
  edestruct (constructed_harness_is_not_degenerate
               Examples.seed_state Examples.dealing_folds
               Examples.data12 Examples.CountingLearner 1%positive 3 0 Examples.world0)
    as (_ & _ & H & _).
  - vm_compute. reflexivity.
  - exact H.
Defined.

Lemma constructed_harness_registry_witness :
  ∃ self w1,
    Examples.init Examples.data12 3 Examples.world0 = (Ok self, w1)
    ∧ map essay_set (keys self) = group Examples.data12
    ∧ map ref (keys self) = seq 0 12.
Proof.
  eexists _, _. split; [vm_compute; reflexivity|].
  edestruct (constructed_harness_registry
               Examples.seed_state Examples.dealing_folds
               Examples.data12 Examples.CountingLearner 1%positive 3 0 Examples.world0)
    as (_ & _ & H1 & H2).
  - vm_compute. reflexivity.
  - split; [exact H1 | exact H2].
Defined.



Lemma records_carry_their_row_witness :
  ∃ self w1,
    Examples.init Examples.data12 3 Examples.world0 = (Ok self, w1)
    ∧ ∃ preds w2, cross_predict self w1 = (Ok preds, w2)
                  ∧ Forall (aligned Examples.data12) preds.
Proof.
  eexists _, _. split; [vm_compute; reflexivity|].
  lazymatch goal with
  | |- ∃ _ _, cross_predict ?s ?w = _ ∧ _ =>
      eexists _, _; split; [vm_compute; reflexivity|];
      eapply (records_carry_their_row
                Examples.seed_state Examples.dealing_folds Examples.data12
                Examples.CountingLearner 1%positive 3 0 Examples.world0 w w _ s)
  end.
  - vm_compute. reflexivity.
  - left. vm_compute. reflexivity.
Defined.

Lemma cheat_groups_by_essay_set_witness :
  ∃ self w1,
    Examples.init Examples.data12 3 Examples.world0 = (Ok self, w1)
    ∧ ∃ recs w2, cheat self w1 = (Ok recs, w2)
                 ∧ map snd (map (λ r, (pred_essay_set r, idx r)) recs)
                   = [0; 2; 4; 6; 8; 10; 1; 3; 5; 7; 9; 11].
Proof.
  eexists _, _. split; [vm_compute; reflexivity|].
  lazymatch goal with
  | |- ∃ _ _, cheat ?s ?w = _ ∧ _ =>
      eexists _, _; split; [vm_compute; reflexivity|];
      erewrite (cheat_groups_by_essay_set
                  Examples.seed_state Examples.dealing_folds Examples.data12
                  Examples.CountingLearner 1%positive 3 0 Examples.world0 w w _ s)
  end.
  - vm_compute. reflexivity.
  - vm_compute. reflexivity.
  - vm_compute. reflexivity.
Defined.

Lemma cross_predict_stops_at_failing_fold_witness :
  ∃ e w' k w0,
    cross_predict Examples.lopsided Examples.world0 = (Raise e, w')
    ∧ _train_and_predict_one_fold Examples.lopsided k w0 = (Raise e, w').
Proof.
  eexists _, _.
  edestruct (cross_predict_stops_at_failing_fold Examples.lopsided Examples.world0)
    as [(Hnil & _)|(k & w0 & _ & Hrun)].
  - vm_compute. reflexivity.
  - discriminate Hnil.
  - exists k, w0. split; [vm_compute; reflexivity | exact Hrun].
Defined.

Lemma joined_table_lines_witness :
  ∃ self w1,
    Examples.init Examples.data12 3 Examples.world0 = (Ok self, w1)
    ∧ ∃ df w2,
        analyze_cross_predict_structure self w1 = (Ok df, w2)
        ∧ {| m_fold := 1; m_essay_set := 2; train_count := 4; test_count := 2 |} ∈ df.
Proof.
  eexists _, _. split; [vm_compute; reflexivity|].
  lazymatch goal with
  | |- ∃ _ _, analyze_cross_predict_structure ?s ?w = _ ∧ _ =>
      eexists _, _; split; [vm_compute; reflexivity|];
      eapply (joined_table_lines
                Examples.seed_state Examples.dealing_folds Examples.data12
                Examples.CountingLearner 1%positive 3 0 Examples.world0 w w _ s)
  end.
  - vm_compute. reflexivity.
  - vm_compute. reflexivity.
  - exists {| train := [0; 1; 4; 5; 6; 7; 10; 11]; test := [2; 3; 8; 9] |}.
    split; [vm_compute; reflexivity|].
    split; [exists 1; split; [|vm_compute; reflexivity];
            apply (bool_decide_unpack _); vm_compute; exact I|].
    split; [exists 3; split; [|vm_compute; reflexivity];
            apply (bool_decide_unpack _); vm_compute; exact I|].
    split; vm_compute; reflexivity.
Defined.

